(** * SeaTrace: temporal-spatial hazard compositing, shallow embedding

    Embeds the map pipeline of [frontend/src/components/MapView.tsx]
    (activity filter, bucket split, heat layers and circle markers), the
    record shape and duration table of [frontend/src/lib/mockData.ts], the
    region helper [isPointInBbox] and the sidebar region filter, and the
    timeline store ([useTimelineStore]) with the playback and scrub
    handlers of [TimelineControl]; further, the seed builder
    [generateTemporalData], [getDataAtTimestamp], [getTimeAgo], the
    timeline tick marks, the region search of locationData
    ([findRegion], [searchRegions]) and the dropdown's suggestions, the
    social notification feed, the camera moves for the user's region and
    the authentication store ([useAuthStore]).

    Modelling conventions:
    - JavaScript [Date] values are their [getTime()] in milliseconds, as [Z].
    - [durationHours] is an optional integral number of hours.
    - latitudes, longitudes, heat intensities and slider fractions are
      rationals ([Q]); floating-point rounding is not modelled. *)

From Stdlib Require Import ZArith QArith Qround Qminmax Bool List String Lia Lqa.
From Stdlib Require Import Sorted Permutation Ascii DecimalString DecimalNat.
Import ListNotations.

Open Scope Z_scope.

(** ** Data model ([HazardReport] in mockData.ts) *)

Inductive HazardType :=
| tsunami | storm_surge | high_tide | erosion | rip_current | cyclone | coastal_flood.

Inductive Severity := low | medium | high | critical.

Inductive Source := agency | social | news.

Inductive VerificationStatus := verified | unverified | ambiguous | false_alert.

Record HazardReport := {
  id : string;
  type : HazardType;
  severity : Severity;
  lat : Q;
  lng : Q;
  timestamp : Z;                                  (* new Date(r.timestamp).getTime() *)
  isPrediction : option bool;                     (* isPrediction?: boolean *)
  source : option Source;                         (* source?: ... *)
  verificationStatus : option VerificationStatus; (* verificationStatus?: ... *)
  durationHours : option Z                        (* durationHours?: number *)
}.

Definition HazardType_eqb (a b : HazardType) : bool :=
  match a, b with
  | tsunami, tsunami | storm_surge, storm_surge | high_tide, high_tide
  | erosion, erosion | rip_current, rip_current | cyclone, cyclone
  | coastal_flood, coastal_flood => true
  | _, _ => false
  end.

Lemma HazardType_eqb_spec (a b : HazardType) : HazardType_eqb a b = true <-> a = b.
Proof. destruct a, b; simpl; split; congruence. Qed.

Lemma HazardType_eqb_refl (a : HazardType) : HazardType_eqb a a = true.
Proof. destruct a; reflexivity. Qed.

(** [r.isPrediction] used as a condition: [undefined] and [false] are falsy. *)
Definition truthy (b : option bool) : bool :=
  match b with Some true => true | _ => false end.

(** [r.source === s] *)
Definition source_is (s : Source) (o : option Source) : bool :=
  match s, o with
  | agency, Some agency | social, Some social | news, Some news => true
  | _, _ => false
  end.

(** [r.verificationStatus === v] *)
Definition status_is (v : VerificationStatus) (o : option VerificationStatus) : bool :=
  match v, o with
  | verified, Some verified | unverified, Some unverified
  | ambiguous, Some ambiguous | false_alert, Some false_alert => true
  | _, _ => false
  end.

(** [HAZARD_DURATION_HOURS] (mockData.ts): per-kind default durations. *)
Definition HAZARD_DURATION_HOURS (t : HazardType) : Z :=
  match t with
  | rip_current => 6
  | high_tide => 12
  | storm_surge => 48
  | tsunami => 24
  | coastal_flood => 72
  | cyclone => 120
  | erosion => 336
  end.

(** ** The visible-kinds set ([visibleTypes], a JavaScript [Set]) *)

Definition set_has (s : list HazardType) (t : HazardType) : bool :=
  existsb (HazardType_eqb t) s.

Definition set_delete (s : list HazardType) (t : HazardType) : list HazardType :=
  filter (fun u => negb (HazardType_eqb t u)) s.

Definition set_add (s : list HazardType) (t : HazardType) : list HazardType :=
  if set_has s t then s else s ++ [t].

(** [useState(new Set([...]))] *)
Definition initialVisibleTypes : list HazardType :=
  [tsunami; cyclone; storm_surge; high_tide; erosion; rip_current; coastal_flood].

(** [handleToggleType] *)
Definition handleToggleType (type_ : HazardType) (prev : list HazardType) : list HazardType :=
  let next := prev in
  if set_has next type_ then set_delete next type_ else set_add next type_.

(** ** Activity filter (MapView.tsx, lines 153-163) *)

(** [(r.durationHours || 48) * 60 * 60 * 1000]: [undefined] and [0] are falsy. *)
Definition durationMs (r : HazardReport) : Z :=
  let h := match durationHours r with
           | Some h => if h =? 0 then 48 else h
           | None => 48
           end in
  h * 60 * 60 * 1000.

Definition activity_filter (visibleTypes : list HazardType) (selectedTimestamp : Z)
    (r : HazardReport) : bool :=
  let reportTime := timestamp r in
  if reportTime >? selectedTimestamp then false
  else if negb (set_has visibleTypes (type r)) then false
  else
    let expiryTime := reportTime + durationMs r in
    if selectedTimestamp >? expiryTime then false
    else true.

Definition filtered (reports : list HazardReport) (visibleTypes : list HazardType)
    (selectedTimestamp : Z) : list HazardReport :=
  filter (activity_filter visibleTypes selectedTimestamp) reports.

(** ** Bucket split (MapView.tsx, lines 165-171) *)

Definition is_agency_report (r : HazardReport) : bool :=
  source_is agency (source r) && negb (truthy (isPrediction r)).

Definition is_prediction_report (r : HazardReport) : bool :=
  truthy (isPrediction r).

Definition is_verified_news (r : HazardReport) : bool :=
  (source_is news (source r) || source_is social (source r))
  && status_is verified (verificationStatus r).

Definition is_ambiguous_news (r : HazardReport) : bool :=
  (source_is news (source r) || source_is social (source r))
  && status_is ambiguous (verificationStatus r).

(** ** Visual weights (MapView.tsx, lines 188-191, 227-230, 260-263, 314-317) *)

Open Scope Q_scope.

Definition verified_intensity (s : Severity) : Q :=
  match s with
  | critical => 1 | high => 8 # 10 | medium => 55 # 100 | low => 35 # 100
  end.

Definition ambiguous_intensity (s : Severity) : Q :=
  match s with
  | critical => 5 # 10 | high => 35 # 100 | medium => 2 # 10 | low => 1 # 10
  end.

Close Scope Q_scope.

Definition severity_radius (s : Severity) : Z :=
  match s with critical => 10 | high => 8 | medium => 6 | low => 5 end.

(** ** Layers *)

Record Colors := { solid : string; border : string }.

(** [disasterColors] (mockData.ts): defined for every hazard kind. *)
Definition disasterColors (t : HazardType) : option Colors :=
  Some match t with
  | tsunami => {| solid := "rgba(139, 69, 255, 0.7)"; border := "#8B45FF" |}
  | cyclone => {| solid := "rgba(255, 107, 107, 0.7)"; border := "#FF6B6B" |}
  | storm_surge => {| solid := "rgba(52, 211, 153, 0.7)"; border := "#34D399" |}
  | high_tide => {| solid := "rgba(96, 165, 250, 0.7)"; border := "#60A5FA" |}
  | erosion => {| solid := "rgba(251, 191, 36, 0.7)"; border := "#FBBF24" |}
  | rip_current => {| solid := "rgba(248, 113, 113, 0.7)"; border := "#F87171" |}
  | coastal_flood => {| solid := "rgba(56, 189, 248, 0.7)"; border := "#38BDF8" |}
  end.

(** A [L.heatLayer(points, {radius, blur, ...})]; [heat_reports] is the
    [reports] array its points were mapped from. *)
Record HeatLayer := {
  heat_type : HazardType;
  heat_reports : list HazardReport;
  heat_points : list (Q * Q * Q);
  heat_radius : Z;
  heat_blur : Z
}.

(** A [L.circleMarker([r.lat, r.lng], {...})] drawn for report [cm_report]. *)
Record CircleMarker := {
  cm_report : HazardReport;
  cm_radius : Z;
  cm_fillColor : string;
  cm_fillOpacity : Q;
  cm_opacity : Q;
  cm_dashArray : option string
}.

(** The map's layer references ([heatLayersRef], [circleLayersRef],
    [glowLayersRef]); [mapReady] is [mapRef.current !== null]. *)
Record MapState := {
  mapReady : bool;
  heatLayersRef : list HeatLayer;
  circleLayersRef : list CircleMarker;
  glowLayersRef : list CircleMarker
}.

(** [byType[r.type].push(r)] on a record whose keys keep insertion order,
    as [Object.entries] returns them. *)
Fixpoint group_push (acc : list (HazardType * list HazardReport)) (r : HazardReport)
  : list (HazardType * list HazardReport) :=
  match acc with
  | [] => [(type r, [r])]
  | (t, rs) :: rest =>
      if HazardType_eqb t (type r) then (t, rs ++ [r]) :: rest
      else (t, rs) :: group_push rest r
  end.

Definition group_by_type (l : list HazardReport) : list (HazardType * list HazardReport) :=
  fold_left group_push l [].

(** One [Object.entries(byType).forEach] iteration of the heat-layer loops. *)
Definition build_heat (intensity : Severity -> Q) (radius blur : Z)
    (entry : HazardType * list HazardReport) : list HeatLayer :=
  let (t, reports) := entry in
  match disasterColors t with
  | None => []
  | Some _ =>
      let points := map (fun r => (lat r, lng r, intensity (severity r))) reports in
      if Nat.ltb 0 (List.length points) then
        [{| heat_type := t; heat_reports := reports; heat_points := points;
            heat_radius := radius; heat_blur := blur |}]
      else []
  end.

(** One [agencyReports.forEach] iteration: the glow ring, then the main circle. *)
Definition agency_markers (r : HazardReport) : list CircleMarker * list CircleMarker :=
  match disasterColors (type r) with
  | None => ([], [])
  | Some colors =>
      let radius := severity_radius (severity r) in
      ([{| cm_report := r; cm_radius := radius + 6; cm_fillColor := border colors;
           cm_fillOpacity := 12 # 100; cm_opacity := 0; cm_dashArray := None |}],
       [{| cm_report := r; cm_radius := radius; cm_fillColor := border colors;
           cm_fillOpacity := 35 # 100; cm_opacity := 85 # 100; cm_dashArray := None |}])
  end.

(** One [predictionReports.forEach] iteration: a dashed circle. *)
Definition prediction_markers (r : HazardReport) : list CircleMarker :=
  match disasterColors (type r) with
  | None => []
  | Some colors =>
      [{| cm_report := r; cm_radius := severity_radius (severity r);
          cm_fillColor := border colors; cm_fillOpacity := 12 # 100;
          cm_opacity := 5 # 10; cm_dashArray := Some "5 3"%string |}]
  end.

(** The main rendering effect (MapView.tsx, lines 139-348), run on the
    record set [temporalHazardReports]. *)
Definition render_pass (temporalHazardReports : list HazardReport) (showHeatmap : bool)
    (selectedTimestamp : Z) (visibleTypes : list HazardType) (s : MapState) : MapState :=
  if negb (mapReady s) then s else
  (* Clear previous layers *)
  let cleared := {| mapReady := true; heatLayersRef := []; circleLayersRef := [];
                    glowLayersRef := [] |} in
  if negb showHeatmap then cleared else
  let f := filtered temporalHazardReports visibleTypes selectedTimestamp in
  let agencyReports := filter is_agency_report f in
  let predictionReports := filter is_prediction_report f in
  let verifiedNews := filter is_verified_news f in
  let ambiguousNews := filter is_ambiguous_news f in
  let verifiedHeat := flat_map (build_heat verified_intensity 40 30)
                               (group_by_type verifiedNews) in
  let ambiguousHeat := flat_map (build_heat ambiguous_intensity 30 40)
                                (group_by_type ambiguousNews) in
  let agencyGlows := flat_map (fun r => fst (agency_markers r)) agencyReports in
  let agencyCircles := flat_map (fun r => snd (agency_markers r)) agencyReports in
  let predictionCircles := flat_map prediction_markers predictionReports in
  {| mapReady := true;
     heatLayersRef := verifiedHeat ++ ambiguousHeat;
     circleLayersRef := agencyCircles ++ predictionCircles;
     glowLayersRef := agencyGlows |}.

(** A report is drawn by a map state when some layer was built from it. *)
Definition in_layers (s : MapState) (r : HazardReport) : Prop :=
  (exists h, In h (heatLayersRef s) /\ In r (heat_reports h))
  \/ (exists m, In m (circleLayersRef s) /\ cm_report m = r)
  \/ (exists m, In m (glowLayersRef s) /\ cm_report m = r).

(** ** Region scope ([isPointInBbox], locationData; the sidebar filter) *)

Record BBox := { south : Q; west : Q; north : Q; east : Q }.

Record RegionEntry := { name : string; state : string; bbox : BBox }.

Definition isPointInBbox (lat_ lng_ : Q) (b : BBox) (margin : Q) : bool :=
  Qle_bool (south b - margin) lat_ && Qle_bool lat_ (north b + margin)
  && Qle_bool (west b - margin) lng_ && Qle_bool lng_ (east b + margin).

(** The default margin of [isPointInBbox]. *)
Definition default_margin : Q := 1 # 2.

(** [hazardReports] (mockData.ts): the agency, non-prediction reports. *)
Definition hazardReports (temporalHazardReports : list HazardReport) : list HazardReport :=
  filter (fun r => negb (truthy (isPrediction r)) && source_is agency (source r))
         temporalHazardReports.

(** [filteredReports] of the sidebar (NotificationCard.tsx, lines 170-179). *)
Definition sidebar_reports (temporalHazardReports : list HazardReport)
    (selectedType : option HazardType) (region : option RegionEntry) : list HazardReport :=
  let filteredReports :=
    match selectedType with
    | Some t => filter (fun r => HazardType_eqb (type r) t) (hazardReports temporalHazardReports)
    | None => hazardReports temporalHazardReports
    end in
  match region with
  | Some rg => filter (fun r => isPointInBbox (lat r) (lng r) (bbox rg) default_margin)
                      filteredReports
  | None => filteredReports
  end.

(** ** Timeline store ([useTimelineStore], a zustand store) *)

Record TimelineState := {
  selectedTimestamp : Z;
  isPlaying : bool;
  playbackSpeed : Z
}.

(** A partial state passed to zustand's [set]. *)
Record TimelinePartial := {
  p_selectedTimestamp : option Z;
  p_isPlaying : option bool;
  p_playbackSpeed : option Z
}.

Definition no_change : TimelinePartial :=
  {| p_selectedTimestamp := None; p_isPlaying := None; p_playbackSpeed := None |}.

(** [Object.assign({}, state, nextState)] *)
Definition merge (st : TimelineState) (p : TimelinePartial) : TimelineState :=
  {| selectedTimestamp := match p_selectedTimestamp p with Some v => v | None => selectedTimestamp st end;
     isPlaying := match p_isPlaying p with Some v => v | None => isPlaying st end;
     playbackSpeed := match p_playbackSpeed p with Some v => v | None => playbackSpeed st end |}.

(** Store actions: computations over the store's current state. *)
Definition Store (A : Type) : Type := TimelineState -> A * TimelineState.

Definition ret {A} (a : A) : Store A := fun st => (a, st).

Definition bind {A B} (m : Store A) (k : A -> Store B) : Store B :=
  fun st => let (a, st') := m st in k a st'.

Notation "x <- m ;; k" := (bind m (fun x => k)) (at level 61, m at next level, right associativity).

Definition get : Store TimelineState := fun st => (st, st).

(** zustand's [set(updater)]: the updater runs on the current state and may
    itself call [set]; its result is merged into the state as it is after
    those nested calls. *)
Definition set (updater : TimelineState -> Store TimelinePartial) : Store unit :=
  fun st => let (p, st') := updater st st in (tt, merge st' p).

(** The argument of [setSelectedTimestamp]: a [Date] or a function of the
    previous one. *)
Inductive TimestampArg :=
| TsValue (v : Z)
| TsFun (f : Z -> Store Z).

Definition setSelectedTimestamp (timestamp_ : TimestampArg) : Store unit :=
  set (fun state =>
         match timestamp_ with
         | TsFun f => v <- f (selectedTimestamp state) ;;
                      ret {| p_selectedTimestamp := Some v; p_isPlaying := None;
                             p_playbackSpeed := None |}
         | TsValue v => ret {| p_selectedTimestamp := Some v; p_isPlaying := None;
                               p_playbackSpeed := None |}
         end).

Definition setIsPlaying (playing : bool) : Store unit :=
  set (fun _ => ret {| p_selectedTimestamp := None; p_isPlaying := Some playing;
                       p_playbackSpeed := None |}).

(** Initial store state: [new Date('2026-02-13T00:00:00Z')], paused, speed 1. *)
Definition timeline_now : Z := 1770940800000.

Definition initialTimelineState : TimelineState :=
  {| selectedTimestamp := timeline_now; isPlaying := false; playbackSpeed := 1 |}.

(** [getTimelineRange()]: 7 days before to 3 days after [now]. *)
Definition range_start : Z := timeline_now - 7 * 86400000.
Definition range_end : Z := timeline_now + 3 * 86400000.

(** ** TimelineControl handlers *)

(** The updater passed by the playback interval (part_002, lines 153-160). *)
Definition tick_updater (end_ : Z) (prev : Z) : Store Z :=
  let next := prev + 3600000 in
  if next >? end_ then (_ <- setIsPlaying false ;; ret end_)
  else ret next.

Definition playback_tick (end_ : Z) : Store unit :=
  setSelectedTimestamp (TsFun (tick_updater end_)).

(** The interval is installed only while [isPlaying]: one period of the
    playback timer. *)
Definition playback_step (end_ : Z) (st : TimelineState) : TimelineState :=
  if isPlaying st then snd (playback_tick end_ st) else st.

Fixpoint playback_run (end_ : Z) (n : nat) (st : TimelineState) : TimelineState :=
  match n with
  | O => st
  | S n' => playback_run end_ n' (playback_step end_ st)
  end.

(** [new Date(x).getTime()] for a finite [x]: truncation toward zero. *)
Definition date_of_Q (q : Q) : Z :=
  if Qle_bool 0 q then Qfloor q else - Qfloor (- q).

(** [handleSliderClick] (part_002, lines 117-124). *)
Definition handleSliderClick (start end_ : Z) (clientX left width : Q) : Store unit :=
  let totalRange := end_ - start in
  let x := (clientX - left)%Q in
  let percentage := (x / width * 100)%Q in
  setSelectedTimestamp
    (TsValue (date_of_Q (inject_Z start + inject_Z totalRange * percentage / 100)%Q)).

(** [handleMouseMove] (part_002, lines 129-136). *)
Definition handleMouseMove (start end_ : Z) (isDragging : bool) (clientX left width : Q)
  : Store unit :=
  if negb isDragging then ret tt else
  let totalRange := end_ - start in
  let x := (clientX - left)%Q in
  let percentage := Qmax 0 (Qmin 100 (x / width * 100)) in
  setSelectedTimestamp
    (TsValue (date_of_Q (inject_Z start + inject_Z totalRange * percentage / 100)%Q)).

(** [jumpToNow], [jumpBackward], [jumpForward] (part_002, lines 171-173). *)
Definition jumpToNow (now : Z) : Store unit := setSelectedTimestamp (TsValue now).

Definition jumpBackward : Store unit :=
  st <- get ;; setSelectedTimestamp (TsValue (selectedTimestamp st - 86400000)).

Definition jumpForward : Store unit :=
  st <- get ;; setSelectedTimestamp (TsValue (selectedTimestamp st + 86400000)).

(** ** Social notification feed ([SocialNotifications], part_001) *)

(** [SocialNotification] (mockData.ts); the fields the feed reads. *)
Record SocialNotification := {
  sn_id : string;
  sn_timestamp : Z;                 (* new Date(notif.timestamp).getTime() *)
  sn_verificationStatus : VerificationStatus;
  sn_hazardType : option HazardType;
  sn_lat : option Q;
  sn_lng : option Q
}.

(** A JavaScript [Set<string>] of dismissed ids. *)
Definition string_set_has (s : list string) (x : string) : bool :=
  existsb (String.eqb x) s.

Definition string_set_add (s : list string) (x : string) : list string :=
  if string_set_has s x then s else s ++ [x].

Definition MAX_VISIBLE_NOTIFICATIONS : nat := 4.

(** The filter callback (part_001, lines 19-35). *)
Definition notification_passes (selectedTimestamp : Z) (dismissed : list string)
    (region : option RegionEntry) (notif : SocialNotification) : bool :=
  let notifTime := sn_timestamp notif in
  let isBeforeSelected := notifTime <=? selectedTimestamp in
  let notDismissed := negb (string_set_has dismissed (sn_id notif)) in
  let timeDiff := selectedTimestamp - notifTime in
  let within6Hours := (timeDiff <=? 6 * 60 * 60 * 1000) && (timeDiff >=? 0) in
  if negb isBeforeSelected || negb notDismissed || negb within6Hours then false
  else
    match region, sn_lat notif, sn_lng notif with
    | Some rg, Some la, Some ln =>
        if negb (isPointInBbox la ln (bbox rg) default_margin) then false else true
    | _, _, _ => true
    end.

(** [.sort((a, b) => b.timestamp - a.timestamp)]: a stable sort, newest
    first; an element is placed before the equal-time elements that follow
    it in the input. *)
Fixpoint insert_newest (x : SocialNotification) (l : list SocialNotification)
  : list SocialNotification :=
  match l with
  | [] => [x]
  | y :: l' => if sn_timestamp y <=? sn_timestamp x then x :: l else y :: insert_newest x l'
  end.

Fixpoint sort_newest (l : list SocialNotification) : list SocialNotification :=
  match l with
  | [] => []
  | x :: l' => insert_newest x (sort_newest l')
  end.

(** The feed effect (part_001, lines 17-40): filter, sort, [slice(0, 4)]. *)
Definition visible_notifications (socialNotifications : list SocialNotification)
    (selectedTimestamp : Z) (dismissed : list string) (region : option RegionEntry)
  : list SocialNotification :=
  firstn MAX_VISIBLE_NOTIFICATIONS
    (sort_newest (filter (notification_passes selectedTimestamp dismissed region)
                         socialNotifications)).

(** [handleDismiss] *)
Definition handleDismiss (id_ : string) (prev : list string) : list string :=
  string_set_add prev id_.

(** ** Seed data ([generateTemporalData], mockData.ts, lines 80-413) *)

(** [`${idx}`] for an array index. *)
Definition string_of_nat (n : nat) : string :=
  DecimalString.NilZero.string_of_uint (Nat.to_uint n).

(** An element of the [agencyReports] and [newsReports] arrays: the fields
    the builder reads besides the copied text fields. *)
Record PastEntry := {
  pe_daysAgo : Z;
  pe_hoursOffset : option Z;
  pe_type : HazardType;
  pe_severity : Severity;
  pe_lat : Q;
  pe_lng : Q;
  pe_source : option Source;
  pe_verificationStatus : option VerificationStatus
}.

(** An element of the [predictions] array. *)
Record PredictionEntry := {
  pr_daysAhead : Z;
  pr_type : HazardType;
  pr_severity : Severity;
  pr_lat : Q;
  pr_lng : Q;
  pr_source : option Source;
  pr_verificationStatus : option VerificationStatus
}.

(** [timestamp.setDate(timestamp.getDate() - report.daysAgo)], then
    [if (report.hoursOffset) timestamp.setHours(timestamp.getHours() + report.hoursOffset)],
    in a time zone with a fixed UTC offset (India's has no daylight
    saving): the date moves by whole days of 86400000 ms and hours of
    3600000 ms. *)
Definition past_timestamp (now : Z) (report : PastEntry) : Z :=
  let timestamp := now - pe_daysAgo report * 86400000 in
  match pe_hoursOffset report with
  | Some h => if h =? 0 then timestamp else timestamp + h * 3600000
  | None => timestamp
  end.

(** One iteration of [[...agencyReports, ...newsReports].forEach]. *)
Definition build_past_report (now : Z) (idx : nat) (report : PastEntry) : HazardReport :=
  {| id := ("report-" ++ string_of_nat idx)%string;
     type := pe_type report;
     severity := pe_severity report;
     lat := pe_lat report;
     lng := pe_lng report;
     timestamp := past_timestamp now report;
     isPrediction := Some false;
     source := pe_source report;
     verificationStatus := pe_verificationStatus report;
     durationHours := Some (HAZARD_DURATION_HOURS (pe_type report)) |}.

(** One iteration of [predictions.forEach]. *)
Definition build_prediction_report (now : Z) (idx : nat) (p : PredictionEntry) : HazardReport :=
  {| id := ("pred-" ++ string_of_nat idx)%string;
     type := pr_type p;
     severity := pr_severity p;
     lat := pr_lat p;
     lng := pr_lng p;
     timestamp := now + pr_daysAhead p * 86400000;
     isPrediction := Some true;
     source := pr_source p;
     verificationStatus := pr_verificationStatus p;
     durationHours := Some (HAZARD_DURATION_HOURS (pr_type p)) |}.

(** [arr.forEach((x, idx) => reports.push(f(idx, x)))] from index [idx]. *)
Fixpoint build_indexed {A} (f : nat -> A -> HazardReport) (idx : nat) (l : list A)
  : list HazardReport :=
  match l with
  | [] => []
  | x :: l' => f idx x :: build_indexed f (S idx) l'
  end.

(** [generateTemporalData()], with its three local arrays as parameters. *)
Definition generateTemporalData (agencyReports newsReports : list PastEntry)
    (predictions : list PredictionEntry) : list HazardReport :=
  let now := timeline_now in
  build_indexed (build_past_report now) 0 (agencyReports ++ newsReports)
  ++ build_indexed (build_prediction_report now) 0 predictions.

(** ** [getDataAtTimestamp] (useTimelineState, lines 46-49) *)

Definition getDataAtTimestamp (timestamp_ : Z) (allData : list HazardReport)
  : list HazardReport :=
  filter (fun item => timestamp item <=? timestamp_) allData.

(** ** Relative times ([getTimeAgo], NotificationCard.tsx, lines 118-131) *)

(** [`${n}`] for an integer. *)
Definition string_of_Z (z : Z) : string :=
  DecimalString.NilZero.string_of_int (Z.to_int z).

(** [Math.floor] of an integral quotient is [Z.div]. *)
Definition getTimeAgo (date : Z) : string :=
  let now := timeline_now in
  let diffMs := now - date in
  let diffMins := diffMs / 60000 in
  if diffMins <? 1 then "Just now"
  else if diffMins <? 60 then (string_of_Z diffMins ++ "m ago")%string
  else
    let diffHours := diffMins / 60 in
    if diffHours <? 24 then (string_of_Z diffHours ++ "h ago")%string
    else
      let diffDays := diffHours / 24 in
      (string_of_Z diffDays ++ "d ago")%string.

(** ** Timeline tick marks ([TimelineControl], part_002, lines 175-192) *)

Record TickMark := {
  position : Q;
  tick_date : Z;
  isNow : bool;
  isPast : bool;
  isFuture : bool
}.

(** The loop [for (let i = 0; i <= 10; i++)], with [setDate(getDate() + i)]
    moving by whole days as in [past_timestamp]. *)
Definition tick_mark (start end_ now : Z) (i : nat) : TickMark :=
  let totalRange := end_ - start in
  let tickDate := start + Z.of_nat i * 86400000 in
  {| position := (inject_Z (tickDate - start) / inject_Z totalRange * 100)%Q;
     tick_date := tickDate;
     isNow := Z.abs (tickDate - now) <? 43200000;
     isPast := tickDate <? now;
     isFuture := tickDate >? now |}.

Definition tickMarks (start end_ now : Z) : list TickMark :=
  map (tick_mark start end_ now) (seq 0 11).

(** ** Region search (locationData, lines 13-134) *)

(** Strings are read one [ascii] per UTF-16 code unit, for text in the
    range U+0000-U+00FF (Latin-1). *)

(** The white space and line terminators [String.prototype.trim] removes,
    within that range. *)
Definition is_js_whitespace (c : ascii) : bool :=
  let n := nat_of_ascii c in
  ((9 <=? n)%nat && (n <=? 13)%nat) || (n =? 32)%nat || (n =? 160)%nat.

Fixpoint drop_whitespace (l : list ascii) : list ascii :=
  match l with
  | [] => []
  | c :: l' => if is_js_whitespace c then drop_whitespace l' else l
  end.

(** [s.trim()] *)
Definition js_trim (s : string) : string :=
  string_of_list_ascii
    (rev (drop_whitespace (rev (drop_whitespace (list_ascii_of_string s))))).

(** The Unicode lower-case mapping within Latin-1: A-Z and U+00C0-U+00DE
    except U+00D7 move down by 32. *)
Definition lower_char (c : ascii) : ascii :=
  let n := nat_of_ascii c in
  if ((65 <=? n)%nat && (n <=? 90)%nat)
     || ((192 <=? n)%nat && (n <=? 222)%nat && negb (n =? 215)%nat)
  then ascii_of_nat (n + 32) else c.

(** [s.toLowerCase()] *)
Definition js_toLowerCase (s : string) : string :=
  string_of_list_ascii (map lower_char (list_ascii_of_string s)).

(** [s.startsWith(q)] *)
Fixpoint startsWith (s q : string) : bool :=
  match q, s with
  | EmptyString, _ => true
  | String c q', String d s' => Ascii.eqb c d && startsWith s' q'
  | String _ _, EmptyString => false
  end.

(** [s.includes(q)] *)
Fixpoint includes (s q : string) : bool :=
  startsWith s q || match s with
                    | EmptyString => false
                    | String _ s' => includes s' q
                    end.

Definition INDIAN_COASTAL_REGIONS : list RegionEntry := [
  {| name := "Mumbai"; state := "Maharashtra";
     bbox := {| south := 1885 # 100; west := 7275 # 100; north := 1928 # 100; east := 7305 # 100 |} |};
  {| name := "Kutch"; state := "Gujarat";
     bbox := {| south := 2250 # 100; west := 6850 # 100; north := 2400 # 100; east := 7100 # 100 |} |};
  {| name := "Jamnagar"; state := "Gujarat";
     bbox := {| south := 2220 # 100; west := 6980 # 100; north := 2270 # 100; east := 7030 # 100 |} |};
  {| name := "Porbandar"; state := "Gujarat";
     bbox := {| south := 2150 # 100; west := 6950 # 100; north := 2180 # 100; east := 6980 # 100 |} |};
  {| name := "Dwarka"; state := "Gujarat";
     bbox := {| south := 2215 # 100; west := 6885 # 100; north := 2250 # 100; east := 6920 # 100 |} |};
  {| name := "Surat"; state := "Gujarat";
     bbox := {| south := 2105 # 100; west := 7270 # 100; north := 2130 # 100; east := 7300 # 100 |} |};
  {| name := "Bhavnagar"; state := "Gujarat";
     bbox := {| south := 2165 # 100; west := 7205 # 100; north := 2190 # 100; east := 7230 # 100 |} |};
  {| name := "Mandvi"; state := "Gujarat";
     bbox := {| south := 2270 # 100; west := 6925 # 100; north := 2295 # 100; east := 6950 # 100 |} |};
  {| name := "Okha"; state := "Gujarat";
     bbox := {| south := 2240 # 100; west := 6890 # 100; north := 2260 # 100; east := 6920 # 100 |} |};
  {| name := "Ratnagiri"; state := "Maharashtra";
     bbox := {| south := 1685 # 100; west := 7315 # 100; north := 1715 # 100; east := 7345 # 100 |} |};
  {| name := "Sindhudurg"; state := "Maharashtra";
     bbox := {| south := 1590 # 100; west := 7345 # 100; north := 1640 # 100; east := 7375 # 100 |} |};
  {| name := "Goa"; state := "Goa";
     bbox := {| south := 1515 # 100; west := 7365 # 100; north := 1565 # 100; east := 7400 # 100 |} |};
  {| name := "Calangute"; state := "Goa";
     bbox := {| south := 1550 # 100; west := 7370 # 100; north := 1560 # 100; east := 7380 # 100 |} |};
  {| name := "Mangalore"; state := "Karnataka";
     bbox := {| south := 1280 # 100; west := 7475 # 100; north := 1305 # 100; east := 7500 # 100 |} |};
  {| name := "Udupi"; state := "Karnataka";
     bbox := {| south := 1325 # 100; west := 7460 # 100; north := 1350 # 100; east := 7485 # 100 |} |};
  {| name := "Karwar"; state := "Karnataka";
     bbox := {| south := 1475 # 100; west := 7405 # 100; north := 1495 # 100; east := 7425 # 100 |} |};
  {| name := "Kochi"; state := "Kerala";
     bbox := {| south := 980 # 100; west := 7615 # 100; north := 1010 # 100; east := 7640 # 100 |} |};
  {| name := "Thiruvananthapuram"; state := "Kerala";
     bbox := {| south := 840 # 100; west := 7685 # 100; north := 865 # 100; east := 7710 # 100 |} |};
  {| name := "Kovalam"; state := "Kerala";
     bbox := {| south := 835 # 100; west := 7690 # 100; north := 850 # 100; east := 7705 # 100 |} |};
  {| name := "Alappuzha"; state := "Kerala";
     bbox := {| south := 940 # 100; west := 7625 # 100; north := 960 # 100; east := 7645 # 100 |} |};
  {| name := "Chellanam"; state := "Kerala";
     bbox := {| south := 980 # 100; west := 7620 # 100; north := 995 # 100; east := 7635 # 100 |} |};
  {| name := "Kozhikode"; state := "Kerala";
     bbox := {| south := 1115 # 100; west := 7570 # 100; north := 1140 # 100; east := 7595 # 100 |} |};
  {| name := "Chennai"; state := "Tamil Nadu";
     bbox := {| south := 1285 # 100; west := 8010 # 100; north := 1325 # 100; east := 8035 # 100 |} |};
  {| name := "Pondicherry"; state := "Tamil Nadu";
     bbox := {| south := 1185 # 100; west := 7970 # 100; north := 1205 # 100; east := 7990 # 100 |} |};
  {| name := "Nagapattinam"; state := "Tamil Nadu";
     bbox := {| south := 1065 # 100; west := 7975 # 100; north := 1085 # 100; east := 7995 # 100 |} |};
  {| name := "Tuticorin"; state := "Tamil Nadu";
     bbox := {| south := 870 # 100; west := 7805 # 100; north := 890 # 100; east := 7825 # 100 |} |};
  {| name := "Rameswaram"; state := "Tamil Nadu";
     bbox := {| south := 922 # 100; west := 7925 # 100; north := 935 # 100; east := 7945 # 100 |} |};
  {| name := "Mahabalipuram"; state := "Tamil Nadu";
     bbox := {| south := 1255 # 100; west := 8010 # 100; north := 1270 # 100; east := 8025 # 100 |} |};
  {| name := "Kanyakumari"; state := "Tamil Nadu";
     bbox := {| south := 800 # 100; west := 7745 # 100; north := 815 # 100; east := 7760 # 100 |} |};
  {| name := "Visakhapatnam"; state := "Andhra Pradesh";
     bbox := {| south := 1755 # 100; west := 8310 # 100; north := 1785 # 100; east := 8340 # 100 |} |};
  {| name := "Kakinada"; state := "Andhra Pradesh";
     bbox := {| south := 1690 # 100; west := 8215 # 100; north := 1710 # 100; east := 8235 # 100 |} |};
  {| name := "Machilipatnam"; state := "Andhra Pradesh";
     bbox := {| south := 1610 # 100; west := 8105 # 100; north := 1630 # 100; east := 8125 # 100 |} |};
  {| name := "Nellore"; state := "Andhra Pradesh";
     bbox := {| south := 1430 # 100; west := 7990 # 100; north := 1455 # 100; east := 8010 # 100 |} |};
  {| name := "Puri"; state := "Odisha";
     bbox := {| south := 1970 # 100; west := 8570 # 100; north := 1995 # 100; east := 8595 # 100 |} |};
  {| name := "Paradip"; state := "Odisha";
     bbox := {| south := 2020 # 100; west := 8645 # 100; north := 2045 # 100; east := 8675 # 100 |} |};
  {| name := "Bhubaneswar"; state := "Odisha";
     bbox := {| south := 2015 # 100; west := 8570 # 100; north := 2045 # 100; east := 8600 # 100 |} |};
  {| name := "Gopalpur"; state := "Odisha";
     bbox := {| south := 1920 # 100; west := 8485 # 100; north := 1940 # 100; east := 8505 # 100 |} |};
  {| name := "Kolkata"; state := "West Bengal";
     bbox := {| south := 2240 # 100; west := 8820 # 100; north := 2270 # 100; east := 8850 # 100 |} |};
  {| name := "Digha"; state := "West Bengal";
     bbox := {| south := 2155 # 100; west := 8740 # 100; north := 2175 # 100; east := 8765 # 100 |} |};
  {| name := "Sundarbans"; state := "West Bengal";
     bbox := {| south := 2150 # 100; west := 8800 # 100; north := 2210 # 100; east := 8910 # 100 |} |};
  {| name := "Sagar Island"; state := "West Bengal";
     bbox := {| south := 2155 # 100; west := 8800 # 100; north := 2180 # 100; east := 8820 # 100 |} |};
  {| name := "Port Blair"; state := "Andaman & Nicobar";
     bbox := {| south := 1155 # 100; west := 9260 # 100; north := 1180 # 100; east := 9285 # 100 |} |};
  {| name := "Havelock"; state := "Andaman & Nicobar";
     bbox := {| south := 1190 # 100; west := 9285 # 100; north := 1210 # 100; east := 9305 # 100 |} |};
  {| name := "Car Nicobar"; state := "Andaman & Nicobar";
     bbox := {| south := 905 # 100; west := 9265 # 100; north := 930 # 100; east := 9290 # 100 |} |};
  {| name := "Kavaratti"; state := "Lakshadweep";
     bbox := {| south := 1050 # 100; west := 7255 # 100; north := 1065 # 100; east := 7270 # 100 |} |};
  {| name := "Gujarat Coast"; state := "Gujarat";
     bbox := {| south := 2000 # 100; west := 6830 # 100; north := 2400 # 100; east := 7300 # 100 |} |};
  {| name := "Maharashtra Coast"; state := "Maharashtra";
     bbox := {| south := 1570 # 100; west := 7260 # 100; north := 2000 # 100; east := 7400 # 100 |} |};
  {| name := "Karnataka Coast"; state := "Karnataka";
     bbox := {| south := 1270 # 100; west := 7400 # 100; north := 1500 # 100; east := 7500 # 100 |} |};
  {| name := "Kerala Coast"; state := "Kerala";
     bbox := {| south := 820 # 100; west := 7550 # 100; north := 1280 # 100; east := 7720 # 100 |} |};
  {| name := "Tamil Nadu Coast"; state := "Tamil Nadu";
     bbox := {| south := 800 # 100; west := 7740 # 100; north := 1350 # 100; east := 8050 # 100 |} |};
  {| name := "Andhra Pradesh Coast"; state := "Andhra Pradesh";
     bbox := {| south := 1400 # 100; west := 7980 # 100; north := 1800 # 100; east := 8350 # 100 |} |};
  {| name := "Odisha Coast"; state := "Odisha";
     bbox := {| south := 1900 # 100; west := 8450 # 100; north := 2150 # 100; east := 8750 # 100 |} |};
  {| name := "West Bengal Coast"; state := "West Bengal";
     bbox := {| south := 2140 # 100; west := 8650 # 100; north := 2250 # 100; east := 8920 # 100 |} |}
].

(** [!query || query.trim().length === 0]: the empty string is falsy. *)
Definition blank_query (query : string) : bool :=
  String.eqb query "" || (String.length (js_trim query) =? 0)%nat.

Definition exact_match (q : string) (r : RegionEntry) : bool :=
  String.eqb (js_toLowerCase (name r)) q || String.eqb (js_toLowerCase (state r)) q.

Definition prefix_match (q : string) (r : RegionEntry) : bool :=
  startsWith (js_toLowerCase (name r)) q || startsWith (js_toLowerCase (state r)) q.

Definition contains_match (q : string) (r : RegionEntry) : bool :=
  includes (js_toLowerCase (name r)) q || includes (js_toLowerCase (state r)) q.

(** [findRegion(query)]; [Array.prototype.find] is [List.find]. *)
Definition findRegion (query : string) : option RegionEntry :=
  if blank_query query then None else
  let q := js_toLowerCase (js_trim query) in
  match find (exact_match q) INDIAN_COASTAL_REGIONS with
  | Some exact => Some exact
  | None =>
      match find (prefix_match q) INDIAN_COASTAL_REGIONS with
      | Some startsWith => Some startsWith
      | None => find (contains_match q) INDIAN_COASTAL_REGIONS
      end
  end.

(** [searchRegions(query, maxResults)]; the default [maxResults] is 8. *)
Definition searchRegions (query : string) (maxResults : nat) : list RegionEntry :=
  if blank_query query then [] else
  let q := js_toLowerCase (js_trim query) in
  firstn maxResults (filter (contains_match q) INDIAN_COASTAL_REGIONS).

(** The suggestions effect of [UserProfileDropdown] (lines 18-24). *)
Definition suggestions_effect (locationQuery : string) : list RegionEntry :=
  if (0 <? String.length (js_trim locationQuery))%nat
  then searchRegions locationQuery 8 else [].

(** ** Camera moves for the user's region (MapView.tsx, lines 55-130) *)

Definition DEFAULT_CENTER : Q * Q := (20, 80)%Q.
Definition DEFAULT_ZOOM : Z := 5.

(** [[[south - latPad, west - lngPad], [north + latPad, east + lngPad]]]
    with a 10% padding. *)
Definition padded_bounds (b : BBox) : (Q * Q) * (Q * Q) :=
  let padFactor := (1 # 10)%Q in
  let latPad := ((north b - south b) * padFactor)%Q in
  let lngPad := ((east b - west b) * padFactor)%Q in
  ((south b - latPad, west b - lngPad)%Q, (north b + latPad, east b + lngPad)%Q).

Inductive CameraMove :=
| FlyToBounds (bounds : (Q * Q) * (Q * Q))
| FlyTo (center : Q * Q) (zoom : Z).

(** The fly-to-region effect, run when [region] changes: the camera move it
    issues, if any, and the new [prevRegionRef.current]. *)
Definition region_effect (mapReady_ : bool) (region : option RegionEntry)
    (prevRegion : option string) : option CameraMove * option string :=
  if negb mapReady_ then (None, prevRegion) else
  match region with
  | Some r =>
      match prevRegion with
      | Some p => if String.eqb p (name r) then (None, prevRegion)
                  else (Some (FlyToBounds (padded_bounds (bbox r))), Some (name r))
      | None => (Some (FlyToBounds (padded_bounds (bbox r))), Some (name r))
      end
  | None =>
      match prevRegion with
      | Some _ => (Some (FlyTo DEFAULT_CENTER DEFAULT_ZOOM), None)
      | None => (None, prevRegion)
      end
  end.

(** Whether the point [(la, ln)] lies in the camera bounds. *)
Definition in_bounds (bounds : (Q * Q) * (Q * Q)) (la ln : Q) : Prop :=
  let '((s, w), (n, e)) := bounds in (s <= la <= n /\ w <= ln <= e)%Q.

(** ** Authentication store ([useAuthStore], part_005) *)

Module AuthStore.

(** [AuthUser], with the field the store reads. *)
Record AuthUser := { user_id : string; user_region : option RegionEntry }.

Inductive AuthStatus := anonymous | loading | authenticated.

Record AuthState := {
  user : option AuthUser;
  status : AuthStatus;
  region : option RegionEntry
}.

(** The two [localStorage] keys the store uses: ['seatrace_token'] and
    [REGION_STORAGE_KEY]. A region is stored as its [JSON.stringify] text and
    read back with [JSON.parse]; for the plain record of strings and finite
    numbers that round trip gives back the region, which is what is kept. *)
Record Storage := { token_key : option string; region_key : option RegionEntry }.

Definition loadSavedRegion (ls : Storage) : option RegionEntry := region_key ls.

Definition saveRegion (region_ : option RegionEntry) (ls : Storage) : Storage :=
  match region_ with
  | Some r => {| token_key := token_key ls; region_key := Some r |}
  | None => {| token_key := token_key ls; region_key := None |}
  end.

Definition initialAuthState : AuthState :=
  {| user := None; status := anonymous; region := None |}.

(** [user.region || loadSavedRegion()] *)
Definition or_else (a b : option RegionEntry) : option RegionEntry :=
  match a with Some _ => a | None => b end.

Definition login (u : AuthUser) (token : string) (st : AuthState) (ls : Storage)
  : AuthState * Storage :=
  let ls1 := {| token_key := Some token; region_key := region_key ls |} in
  let region_ := or_else (user_region u) (loadSavedRegion ls1) in
  let ls2 := match region_ with Some _ => saveRegion region_ ls1 | None => ls1 end in
  ({| user := Some u; status := authenticated; region := region_ |}, ls2).

Definition logout (st : AuthState) (ls : Storage) : AuthState * Storage :=
  let ls1 := {| token_key := None; region_key := region_key ls |} in
  let ls2 := {| token_key := token_key ls1; region_key := None |} in
  ({| user := None; status := anonymous; region := None |}, ls2).

Definition setRegion (region_ : option RegionEntry) (st : AuthState) (ls : Storage)
  : AuthState * Storage :=
  let ls1 := saveRegion region_ ls in
  ({| user := user st; status := status st; region := region_ |}, ls1).

(** What [api.getMe()] settles to: a user, [null], or a rejection. *)
Inductive GetMeOutcome := me_user (u : AuthUser) | me_null | me_error.

(** [initAuth()] run to completion, the [getMe] call settling to [outcome];
    [!token] holds for a missing or empty token. *)
Definition initAuth (outcome : GetMeOutcome) (st : AuthState) (ls : Storage)
  : AuthState * Storage :=
  let no_token := match token_key ls with
                  | None => true
                  | Some t => String.eqb t ""
                  end in
  if no_token then
    ({| user := user st; status := anonymous; region := region st |}, ls)
  else
    let st1 := {| user := user st; status := loading; region := region st |} in
    match outcome with
    | me_user u =>
        let savedRegion := or_else (user_region u) (loadSavedRegion ls) in
        ({| user := Some u; status := authenticated; region := savedRegion |}, ls)
    | me_null =>
        let ls1 := {| token_key := None; region_key := region_key ls |} in
        ({| user := None; status := anonymous; region := region st1 |}, ls1)
    | me_error =>
        ({| user := user st1; status := anonymous; region := region st1 |}, ls)
    end.

End AuthStore.

(** ** Sample inputs *)

(** A map state whose map has been initialised and holds no layers yet. *)
Definition ready_map : MapState :=
  {| mapReady := true; heatLayersRef := []; circleLayersRef := []; glowLayersRef := [] |}.

(** The first agency report of the data set: a storm surge at Mandvi. *)
Definition mandvi_surge : HazardReport :=
  {| id := "report-0"; type := storm_surge; severity := medium;
     lat := 2283 # 100; lng := 6935 # 100; timestamp := timeline_now - 48 * 3600000;
     isPrediction := Some false; source := Some agency;
     verificationStatus := Some verified; durationHours := Some 48 |}.

Definition with_duration (r : HazardReport) (d : option Z) : HazardReport :=
  {| id := id r; type := type r; severity := severity r; lat := lat r; lng := lng r;
     timestamp := timestamp r; isPrediction := isPrediction r; source := source r;
     verificationStatus := verificationStatus r; durationHours := d |}.

Definition with_status (r : HazardReport) (pred : option bool) (src : option Source)
    (v : option VerificationStatus) : HazardReport :=
  {| id := id r; type := type r; severity := severity r; lat := lat r; lng := lng r;
     timestamp := timestamp r; isPrediction := pred; source := src;
     verificationStatus := v; durationHours := durationHours r |}.

(** A cyclone report issued 100 hours before [timeline_now], without a
    [durationHours]. *)
Definition cyclone_no_duration : HazardReport :=
  {| id := "report-x"; type := cyclone; severity := high;
     lat := 1950 # 100; lng := 8850 # 100; timestamp := timeline_now - 100 * 3600000;
     isPrediction := Some false; source := Some agency;
     verificationStatus := Some verified; durationHours := None |}.

(** Five notifications without coordinates, one to five hours before
    [timeline_now]. *)
Definition sample_notification (k : Z) : SocialNotification :=
  {| sn_id := match k with 1 => "sn-1" | 2 => "sn-2" | 3 => "sn-3" | 4 => "sn-4"
                          | _ => "sn-5" end%string;
     sn_timestamp := timeline_now - k * 3600000; sn_verificationStatus := verified;
     sn_hazardType := Some cyclone; sn_lat := None; sn_lng := None |}.

Definition sample_notifications : list SocialNotification :=
  map sample_notification [3; 1; 5; 2; 4].

Definition Mumbai : RegionEntry :=
  {| name := "Mumbai"; state := "Maharashtra";
     bbox := {| south := 1885 # 100; west := 7275 # 100; north := 1928 # 100; east := 7305 # 100 |} |}.

(** Two entries of [agencyReports] (Mandvi, day -7; Chellanam, day -7 plus
    six hours) and the first entry of [predictions]. *)
Definition mandvi_entry : PastEntry :=
  {| pe_daysAgo := 7; pe_hoursOffset := None; pe_type := storm_surge;
     pe_severity := medium; pe_lat := 2283 # 100; pe_lng := 6935 # 100;
     pe_source := Some agency; pe_verificationStatus := Some verified |}.

Definition chellanam_entry : PastEntry :=
  {| pe_daysAgo := 7; pe_hoursOffset := Some 6; pe_type := erosion;
     pe_severity := medium; pe_lat := 985 # 100; pe_lng := 7628 # 100;
     pe_source := Some agency; pe_verificationStatus := Some verified |}.

Definition odisha_prediction : PredictionEntry :=
  {| pr_daysAhead := 1; pr_type := cyclone; pr_severity := high;
     pr_lat := 20; pr_lng := 86; pr_source := Some agency;
     pr_verificationStatus := Some verified |}.

(** The Kochi entry of [INDIAN_COASTAL_REGIONS]. *)
Definition Kochi : RegionEntry :=
  {| name := "Kochi"; state := "Kerala";
     bbox := {| south := 980 # 100; west := 7615 # 100; north := 1010 # 100; east := 7640 # 100 |} |}.

Example mandvi_surge_active_inside :
  activity_filter initialVisibleTypes (timeline_now - 3600000) mandvi_surge = true.
Proof. reflexivity. Qed.

Example mandvi_surge_inactive_after :
  activity_filter initialVisibleTypes (timeline_now + 1000) mandvi_surge = false.
Proof. reflexivity. Qed.

(** ** Provenance of the layers of a rendering pass *)

Lemma group_push_members (acc : list (HazardType * list HazardReport)) (r : HazardReport) :
  forall p x, In p (group_push acc r) -> In x (snd p) ->
  x = r \/ exists p', In p' acc /\ In x (snd p').
Proof.
  induction acc as [|[t rs] rest IH]; simpl; intros p x Hp Hx.
  - destruct Hp as [<-|[]]. destruct Hx as [<-|[]]. left; reflexivity.
  - destruct (HazardType_eqb t (type r)).
    + destruct Hp as [<-|Hp].
      * simpl in Hx. apply in_app_or in Hx. destruct Hx as [Hx|[<-|[]]].
        -- right. exists (t, rs). split; [left; reflexivity | exact Hx].
        -- left; reflexivity.
      * right. exists p. split; [right; exact Hp | exact Hx].
    + destruct Hp as [<-|Hp].
      * right. exists (t, rs). split; [left; reflexivity | exact Hx].
      * destruct (IH p x Hp Hx) as [Heq|[p' [Hp' Hx']]].
        -- left; exact Heq.
        -- right. exists p'. split; [right; exact Hp' | exact Hx'].
Qed.

Lemma group_fold_members (l : list HazardReport) :
  forall acc p x, In p (fold_left group_push l acc) -> In x (snd p) ->
  In x l \/ exists p', In p' acc /\ In x (snd p').
Proof.
  induction l as [|r l IH]; simpl; intros acc p x Hp Hx.
  - right. exists p. split; assumption.
  - destruct (IH _ _ _ Hp Hx) as [H|[p' [Hp' Hx']]].
    + left; right; exact H.
    + destruct (group_push_members acc r p' x Hp' Hx') as [<-|H].
      * left; left; reflexivity.
      * right; exact H.
Qed.

Lemma group_by_type_members (l : list HazardReport) p x :
  In p (group_by_type l) -> In x (snd p) -> In x l.
Proof.
  unfold group_by_type. intros Hp Hx.
  destruct (group_fold_members l [] p x Hp Hx) as [H|[p' [[] _]]]. exact H.
Qed.

Lemma build_heat_shape intensity radius blur e h :
  In h (build_heat intensity radius blur e) ->
  heat_reports h = snd e /\ heat_radius h = radius /\
  heat_points h = map (fun r => (lat r, lng r, intensity (severity r))) (heat_reports h).
Proof.
  destruct e as [t rs]. unfold build_heat, disasterColors.
  destruct (Nat.ltb 0 _); simpl; [|intros []].
  intros [<-|[]]. simpl. auto.
Qed.

Lemma heat_members intensity radius blur l h x :
  In h (flat_map (build_heat intensity radius blur) (group_by_type l)) ->
  In x (heat_reports h) -> In x l.
Proof.
  rewrite in_flat_map. intros [e [He Hh]] Hx.
  destruct (build_heat_shape _ _ _ _ _ Hh) as [Hr _].
  rewrite Hr in Hx. exact (group_by_type_members l e x He Hx).
Qed.

Lemma heat_layers_shape intensity radius blur l h :
  In h (flat_map (build_heat intensity radius blur) (group_by_type l)) ->
  heat_radius h = radius /\
  heat_points h = map (fun r => (lat r, lng r, intensity (severity r))) (heat_reports h).
Proof.
  rewrite in_flat_map. intros [e [_ Hh]].
  destruct (build_heat_shape _ _ _ _ _ Hh) as [_ H]. exact H.
Qed.

Lemma agency_glow_members (l : list HazardReport) m :
  In m (flat_map (fun r => fst (agency_markers r)) l) -> In (cm_report m) l.
Proof.
  rewrite in_flat_map. intros [r [Hr Hm]].
  unfold agency_markers, disasterColors in Hm. simpl in Hm.
  destruct Hm as [<-|[]]. exact Hr.
Qed.

Lemma agency_circle_members (l : list HazardReport) m :
  In m (flat_map (fun r => snd (agency_markers r)) l) ->
  In (cm_report m) l /\ cm_radius m = severity_radius (severity (cm_report m)).
Proof.
  rewrite in_flat_map. intros [r [Hr Hm]].
  unfold agency_markers, disasterColors in Hm. simpl in Hm.
  destruct Hm as [<-|[]]. split; [exact Hr | reflexivity].
Qed.

Lemma prediction_circle_members (l : list HazardReport) m :
  In m (flat_map prediction_markers l) ->
  In (cm_report m) l /\ cm_radius m = severity_radius (severity (cm_report m)).
Proof.
  rewrite in_flat_map. intros [r [Hr Hm]].
  unfold prediction_markers, disasterColors in Hm. simpl in Hm.
  destruct Hm as [<-|[]]. split; [exact Hr | reflexivity].
Qed.

Lemma render_heat_origin reports show t vis s h r :
  mapReady s = true ->
  In h (heatLayersRef (render_pass reports show t vis s)) -> In r (heat_reports h) ->
  show = true /\ In r (filtered reports vis t) /\
  (is_verified_news r = true \/ is_ambiguous_news r = true).
Proof.
  intros Hready. unfold render_pass. rewrite Hready. simpl.
  destruct show; simpl; [|intros []].
  intros Hh Hx. apply in_app_or in Hh.
  destruct Hh as [Hh|Hh]; pose proof (heat_members _ _ _ _ _ _ Hh Hx) as Hm;
    apply filter_In in Hm; destruct Hm as [Hm Hp]; auto.
Qed.

Lemma render_circle_origin reports show t vis s m :
  mapReady s = true ->
  In m (circleLayersRef (render_pass reports show t vis s)) ->
  show = true /\ In (cm_report m) (filtered reports vis t) /\
  (is_agency_report (cm_report m) = true \/ is_prediction_report (cm_report m) = true) /\
  cm_radius m = severity_radius (severity (cm_report m)).
Proof.
  intros Hready. unfold render_pass. rewrite Hready. simpl.
  destruct show; simpl; [|intros []].
  intros Hm. apply in_app_or in Hm. destruct Hm as [Hm|Hm].
  - destruct (agency_circle_members _ _ Hm) as [Hin Hrad].
    apply filter_In in Hin. destruct Hin as [Hin Hp]. auto.
  - destruct (prediction_circle_members _ _ Hm) as [Hin Hrad].
    apply filter_In in Hin. destruct Hin as [Hin Hp]. auto.
Qed.

Lemma render_glow_origin reports show t vis s m :
  mapReady s = true ->
  In m (glowLayersRef (render_pass reports show t vis s)) ->
  show = true /\ In (cm_report m) (filtered reports vis t) /\
  is_agency_report (cm_report m) = true.
Proof.
  intros Hready. unfold render_pass. rewrite Hready. simpl.
  destruct show; simpl; [|intros []].
  intros Hm. pose proof (agency_glow_members _ _ Hm) as Hin.
  apply filter_In in Hin. destruct Hin as [Hin Hp]. auto.
Qed.

Lemma render_origin reports show t vis s r :
  mapReady s = true -> in_layers (render_pass reports show t vis s) r ->
  show = true /\ In r (filtered reports vis t) /\
  (is_verified_news r = true \/ is_ambiguous_news r = true
   \/ is_agency_report r = true \/ is_prediction_report r = true).
Proof.
  intros Hready [[h [Hh Hx]]|[[m [Hm <-]]|[m [Hm <-]]]].
  - destruct (render_heat_origin _ _ _ _ _ _ _ Hready Hh Hx) as [? [? [?|?]]]; intuition.
  - destruct (render_circle_origin _ _ _ _ _ _ Hready Hm) as [? [? [[?|?] _]]]; intuition.
  - destruct (render_glow_origin _ _ _ _ _ _ Hready Hm) as [? [? ?]]; intuition.
Qed.

Lemma filtered_visible reports vis t r :
  In r (filtered reports vis t) -> set_has vis (type r) = true.
Proof.
  unfold filtered. rewrite filter_In. intros [_ H]. revert H.
  unfold activity_filter. destruct (timestamp r >? t); [discriminate|].
  destruct (set_has vis (type r)); [reflexivity | discriminate].
Qed.

Lemma set_has_delete_other (vis : list HazardType) (k k' : HazardType) :
  k' <> k -> set_has (set_delete vis k) k' = set_has vis k'.
Proof.
  intros Hne. unfold set_has, set_delete.
  induction vis as [|u vis IH]; simpl; [reflexivity|].
  destruct (HazardType_eqb k u) eqn:Eku; simpl.
  - apply HazardType_eqb_spec in Eku. subst u.
    assert (HazardType_eqb k' k = false) as ->.
    { apply not_true_iff_false. rewrite HazardType_eqb_spec. exact Hne. }
    simpl. exact IH.
  - rewrite IH. reflexivity.
Qed.

Lemma percentage_bounds (y : Q) : (0 <= Qmax 0 (Qmin 100 y) <= 100)%Q.
Proof.
  split; [apply Q.le_max_l|].
  apply Q.max_lub; [discriminate | apply Q.le_min_l].
Qed.

Lemma slider_position_bounds (start totalRange : Z) (p : Q) :
  0 <= totalRange -> (0 <= p <= 100)%Q ->
  (inject_Z start <= inject_Z start + inject_Z totalRange * p / 100
   <= inject_Z start + inject_Z totalRange)%Q.
Proof.
  intros HT Hp.
  assert (HT' : (0 <= inject_Z totalRange)%Q).
  { change 0%Q with (inject_Z 0). rewrite <- Zle_Qle. exact HT. }
  clear HT. revert HT'. generalize (inject_Z totalRange) (inject_Z start). intros T s0 HT.
  unfold Qdiv. change (/ 100)%Q with (1 # 100)%Q. nra.
Qed.

Lemma date_of_Q_bounds (lo hi : Z) (q : Q) :
  0 <= lo -> (inject_Z lo <= q <= inject_Z hi)%Q -> lo <= date_of_Q q <= hi.
Proof.
  intros Hlo [H1 H2]. unfold date_of_Q.
  assert (H0 : (0 <= q)%Q).
  { apply Qle_trans with (inject_Z lo); [|exact H1].
    change 0%Q with (inject_Z 0). rewrite <- Zle_Qle. exact Hlo. }
  apply Qle_bool_iff in H0. rewrite H0. split.
  - rewrite <- (Qfloor_Z lo). apply Qfloor_resp_le. exact H1.
  - rewrite Zle_Qle. apply Qle_trans with q; [apply Qfloor_le | exact H2].
Qed.

Lemma activity_filter_window (vis : list HazardType) (t : Z) (r : HazardReport) :
  set_has vis (type r) = true ->
  activity_filter vis t r = true <-> timestamp r <= t <= timestamp r + durationMs r.
Proof.
  intros Hvis. unfold activity_filter. rewrite Hvis. simpl.
  destruct (Z.gtb_spec (timestamp r) t);
    [split; [discriminate | lia]|].
  destruct (Z.gtb_spec t (timestamp r + durationMs r));
    split; first [discriminate | lia | reflexivity].
Qed.

Lemma render_pass_ready reports show t vis s :
  mapReady s = true -> mapReady (render_pass reports show t vis s) = true.
Proof.
  intros H. unfold render_pass. rewrite H. simpl. destruct show; reflexivity.
Qed.

Lemma playback_step_bounded (end_ : Z) (st : TimelineState) :
  selectedTimestamp st <= end_ ->
  selectedTimestamp st <= selectedTimestamp (playback_step end_ st) <= end_.
Proof.
  intros H. unfold playback_step. destruct (isPlaying st); [|lia].
  unfold playback_tick, setSelectedTimestamp, set, bind, tick_updater, setIsPlaying, set, ret.
  simpl. destruct (Z.gtb_spec (selectedTimestamp st + 3600000) end_); simpl; lia.
Qed.

Lemma playback_run_bounded (end_ : Z) (n : nat) :
  forall st, selectedTimestamp st <= end_ ->
  selectedTimestamp st <= selectedTimestamp (playback_run end_ n st) <= end_.
Proof.
  induction n as [|n IH]; simpl; intros st H; [lia|].
  pose proof (playback_step_bounded end_ st H) as [H1 H2].
  pose proof (IH _ H2). lia.
Qed.

(** * Claims *)

(** ** C1: the activity window *)

(** C1 (counterexample): at exactly the expiry instant
    [timestamp + duration] the Mandvi storm-surge report still passes the
    activity filter, so the window is not exclusive at its end. *)
Lemma C1_active_at_expiry :
  timestamp mandvi_surge + durationMs mandvi_surge = timeline_now /\
  activity_filter initialVisibleTypes timeline_now mandvi_surge = true.
Proof. split; reflexivity. Qed.

(** C1 (amended): for a report whose kind is visible, the activity filter
    holds at reference time [t] iff [timestamp <= t <= timestamp + duration]
    (inclusive start and inclusive end), where the duration is
    [durationHours] hours, or 48 hours when it is absent or 0. *)
Theorem activity_filter_closed_window (vis : list HazardType) (t : Z) (r : HazardReport)
    (Hvis : set_has vis (type r) = true) :
  activity_filter vis t r = true <-> timestamp r <= t <= timestamp r + durationMs r.
Proof. exact (activity_filter_window vis t r Hvis). Qed.

Lemma activity_filter_closed_window_witness :
  set_has initialVisibleTypes (type mandvi_surge) = true /\
  (activity_filter initialVisibleTypes timeline_now mandvi_surge = true <->
   timestamp mandvi_surge <= timeline_now <= timestamp mandvi_surge + durationMs mandvi_surge).
Proof.
  split; [reflexivity|].
  apply (activity_filter_closed_window initialVisibleTypes timeline_now mandvi_surge).
  reflexivity.
Defined.

(** ** C4: absent durations *)

(** C4 (counterexample): a cyclone report without [durationHours], issued
    100 hours before the reference time, is filtered out, although the
    per-kind default for cyclones (120 hours) would keep it active. *)
Lemma C4_absent_duration_uses_flat_fallback :
  durationHours cyclone_no_duration = None /\
  timestamp cyclone_no_duration <= timeline_now
    < timestamp cyclone_no_duration + HAZARD_DURATION_HOURS (type cyclone_no_duration) * 3600000 /\
  activity_filter initialVisibleTypes timeline_now cyclone_no_duration = false.
Proof. split; [reflexivity | split; [cbn; unfold timeline_now; lia | reflexivity]]. Qed.

(** C4 (amended): when [durationHours] is absent (or 0) the activity test
    uses a flat 48-hour duration, whatever the hazard kind; a present,
    non-zero value is used as given; no kind raises an error. *)
Theorem durationMs_flat_fallback :
  forall r : HazardReport,
    durationMs (with_duration r None) = 48 * 3600000 /\
    durationMs (with_duration r (Some 0)) = 48 * 3600000 /\
    (forall h, h <> 0 -> durationMs (with_duration r (Some h)) = h * 3600000).
Proof.
  intros r. unfold durationMs; simpl. split; [reflexivity|]. split; [reflexivity|].
  intros h Hh. destruct (Z.eqb_spec h 0); [contradiction | lia].
Qed.

(** ** C9: every pass rebuilds all layers *)

(** C9: once the map exists, a rendering pass discards the previous layer
    references and rebuilds them from its inputs only: two passes with the
    same inputs give the same layers whatever layers were there before, and
    repeating a pass changes nothing. *)
Theorem render_pass_rebuilds (reports : list HazardReport) (show : bool) (t : Z)
    (vis : list HazardType) (s1 s2 : MapState)
    (H1 : mapReady s1 = true) (H2 : mapReady s2 = true) :
  render_pass reports show t vis s1 = render_pass reports show t vis s2 /\
  render_pass reports show t vis (render_pass reports show t vis s1)
  = render_pass reports show t vis s1.
Proof.
  split.
  - unfold render_pass. rewrite H1, H2. reflexivity.
  - pose proof (render_pass_ready reports show t vis s1 H1) as H3.
    unfold render_pass at 1. rewrite H3. unfold render_pass. rewrite H1. reflexivity.
Qed.

Lemma render_pass_rebuilds_witness :
  let stale := {| mapReady := true; heatLayersRef := [];
                  circleLayersRef := circleLayersRef
                    (render_pass [mandvi_surge] true timeline_now initialVisibleTypes ready_map);
                  glowLayersRef := [] |} in
  (mapReady ready_map = true /\ mapReady stale = true) /\
  render_pass [mandvi_surge] true (timeline_now + 1000) initialVisibleTypes ready_map
  = render_pass [mandvi_surge] true (timeline_now + 1000) initialVisibleTypes stale /\
  render_pass [mandvi_surge] true (timeline_now + 1000) initialVisibleTypes
    (render_pass [mandvi_surge] true (timeline_now + 1000) initialVisibleTypes ready_map)
  = render_pass [mandvi_surge] true (timeline_now + 1000) initialVisibleTypes ready_map.
Proof.
  intros stale. split; [split; reflexivity|].
  apply (render_pass_rebuilds [mandvi_surge] true (timeline_now + 1000) initialVisibleTypes
           ready_map stale); reflexivity.
Defined.

(** ** C10: the visible-kinds toggle *)

(** C10: the visible-kinds set starts with all seven kinds; toggling a kind
    flips its membership only; a report whose kind is not visible is in no
    layer of a pass, and an active agency report whose kind is visible is
    drawn. *)
Theorem hidden_kind_not_drawn :
  (forall k, set_has initialVisibleTypes k = true) /\
  (forall vis k, set_has (handleToggleType k vis) k = negb (set_has vis k)) /\
  (forall vis k k', k' <> k -> set_has (handleToggleType k vis) k' = set_has vis k') /\
  (forall reports show t vis s r,
      mapReady s = true -> set_has vis (type r) = false ->
      ~ in_layers (render_pass reports show t vis s) r) /\
  (forall reports t vis s r,
      mapReady s = true -> In r reports -> set_has vis (type r) = true ->
      timestamp r <= t <= timestamp r + durationMs r -> is_agency_report r = true ->
      in_layers (render_pass reports true t vis s) r).
Proof.
  split; [intros []; reflexivity|].
  split.
  { intros vis k. unfold handleToggleType.
    destruct (set_has vis k) eqn:E; simpl.
    - unfold set_has, set_delete. apply not_true_iff_false.
      rewrite existsb_exists. intros [u [Hu Heq]].
      apply filter_In in Hu. destruct Hu as [_ Hu]. rewrite Heq in Hu. discriminate.
    - unfold set_add. rewrite E. unfold set_has. rewrite existsb_app. simpl.
      rewrite HazardType_eqb_refl, orb_true_r. reflexivity. }
  split.
  { intros vis k k' Hne. unfold handleToggleType.
    destruct (set_has vis k) eqn:E.
    - apply set_has_delete_other. exact Hne.
    - unfold set_add. rewrite E. unfold set_has. rewrite existsb_app. simpl.
      assert (HazardType_eqb k' k = false) as ->.
      { apply not_true_iff_false. rewrite HazardType_eqb_spec. exact Hne. }
      rewrite orb_false_r. reflexivity. }
  split.
  { intros reports show t vis s r Hready Hvis Hin.
    destruct (render_origin _ _ _ _ _ _ Hready Hin) as [_ [Hf _]].
    rewrite (filtered_visible _ _ _ _ Hf) in Hvis. discriminate. }
  intros reports t vis s r Hready Hr Hvis Ht Hag.
  right; left.
  exists {| cm_report := r; cm_radius := severity_radius (severity r);
            cm_fillColor := match disasterColors (type r) with
                            | Some c => border c | None => EmptyString end;
            cm_fillOpacity := 35 # 100; cm_opacity := 85 # 100; cm_dashArray := None |}.
  split; [|reflexivity].
  unfold render_pass. rewrite Hready. simpl. apply in_or_app. left.
  apply in_flat_map. exists r. split.
  - apply filter_In. split; [|exact Hag].
    unfold filtered. apply filter_In. split; [exact Hr|].
    apply activity_filter_window; assumption.
  - unfold agency_markers, disasterColors. simpl. left. reflexivity.
Qed.

(** ** C2: false alerts *)

(** A prediction flagged as a false alert (agency source), active at
    [timeline_now]. *)
Definition false_alert_prediction : HazardReport :=
  with_status mandvi_surge (Some true) (Some agency) (Some false_alert).

(** C2 (counterexample): a prediction whose [verificationStatus] is
    [false_alert] is still drawn as a dashed prediction marker. *)
Lemma C2_false_alert_prediction_drawn :
  verificationStatus false_alert_prediction = Some false_alert /\
  in_layers (render_pass [false_alert_prediction] true (timeline_now - 3600000)
               initialVisibleTypes ready_map) false_alert_prediction.
Proof.
  split; [reflexivity|].
  right; left. eexists. split; [simpl; left; reflexivity | reflexivity].
Qed.

(** C2 (amended): a report with [verificationStatus = false_alert] is never
    in a heat layer, and unless it is a prediction or agency-sourced it is in
    no layer at all; a prediction or agency false alert that is active and of
    a visible kind is still drawn as a marker (a circle built from it). *)
Theorem false_alert_excluded_from_heat (reports : list HazardReport) (show : bool) (t : Z)
    (vis : list HazardType) (s : MapState) (r : HazardReport)
    (Hready : mapReady s = true) (Hfa : verificationStatus r = Some false_alert) :
  (forall h, In h (heatLayersRef (render_pass reports show t vis s)) -> ~ In r (heat_reports h)) /\
  (truthy (isPrediction r) = false -> source r <> Some agency ->
   ~ in_layers (render_pass reports show t vis s) r) /\
  (show = true -> In r reports -> activity_filter vis t r = true ->
   truthy (isPrediction r) = true \/ source r = Some agency ->
   exists m, In m (circleLayersRef (render_pass reports show t vis s)) /\ cm_report m = r).
Proof.
  assert (Hv : is_verified_news r = false /\ is_ambiguous_news r = false).
  { unfold is_verified_news, is_ambiguous_news. rewrite Hfa. simpl.
    rewrite !andb_false_r. split; reflexivity. }
  destruct Hv as [Hv Ha]. split; [|split].
  - intros h Hh Hx.
    destruct (render_heat_origin _ _ _ _ _ _ _ Hready Hh Hx) as [_ [_ [H|H]]]; congruence.
  - intros Hp Hs Hin.
    destruct (render_origin _ _ _ _ _ _ Hready Hin) as [_ [_ H]].
    unfold is_agency_report, is_prediction_report in H. rewrite Hp in H.
    destruct H as [H|[H|[H|H]]]; try congruence.
    apply Hs. destruct (source r) as [[]|]; simpl in H; congruence.
  - intros Hshow Hin Hact Hcase.
    assert (Hf : In r (filtered reports vis t)) by (apply filter_In; split; assumption).
    unfold render_pass. rewrite Hready, Hshow. cbn [negb circleLayersRef].
    destruct (truthy (isPrediction r)) eqn:Ep.
    + assert (Hm : exists m, In m (prediction_markers r) /\ cm_report m = r)
        by (unfold prediction_markers; simpl; eexists; split; [left; reflexivity | reflexivity]).
      destruct Hm as (m & Hm1 & Hm2). exists m. split; [|exact Hm2].
      apply in_or_app. right. apply in_flat_map. exists r. split; [|exact Hm1].
      apply filter_In. split; [exact Hf | exact Ep].
    + destruct Hcase as [Hc|Hc]; [discriminate|].
      assert (Hm : exists m, In m (snd (agency_markers r)) /\ cm_report m = r)
        by (unfold agency_markers; simpl; eexists; split; [left; reflexivity | reflexivity]).
      destruct Hm as (m & Hm1 & Hm2). exists m. split; [|exact Hm2].
      apply in_or_app. left. apply in_flat_map. exists r. split; [|exact Hm1].
      apply filter_In. split; [exact Hf|].
      unfold is_agency_report. rewrite Hc, Ep. reflexivity.
Qed.

Lemma false_alert_excluded_from_heat_witness :
  (mapReady ready_map = true /\
   verificationStatus (with_status mandvi_surge (Some false) (Some social) (Some false_alert))
   = Some false_alert) /\
  ((forall h, In h (heatLayersRef (render_pass [with_status mandvi_surge (Some false) (Some social) (Some false_alert)]
                                     true timeline_now initialVisibleTypes ready_map)) ->
              ~ In (with_status mandvi_surge (Some false) (Some social) (Some false_alert))
                   (heat_reports h)) /\
   (truthy (isPrediction (with_status mandvi_surge (Some false) (Some social) (Some false_alert)))
    = false ->
    source (with_status mandvi_surge (Some false) (Some social) (Some false_alert)) <> Some agency ->
    ~ in_layers (render_pass [with_status mandvi_surge (Some false) (Some social) (Some false_alert)]
                   true timeline_now initialVisibleTypes ready_map)
        (with_status mandvi_surge (Some false) (Some social) (Some false_alert))) /\
   (true = true ->
    In (with_status mandvi_surge (Some false) (Some social) (Some false_alert))
       [with_status mandvi_surge (Some false) (Some social) (Some false_alert)] ->
    activity_filter initialVisibleTypes timeline_now
      (with_status mandvi_surge (Some false) (Some social) (Some false_alert)) = true ->
    truthy (isPrediction (with_status mandvi_surge (Some false) (Some social) (Some false_alert)))
      = true \/
    source (with_status mandvi_surge (Some false) (Some social) (Some false_alert)) = Some agency ->
    exists m, In m (circleLayersRef
                      (render_pass [with_status mandvi_surge (Some false) (Some social) (Some false_alert)]
                         true timeline_now initialVisibleTypes ready_map)) /\
              cm_report m = with_status mandvi_surge (Some false) (Some social) (Some false_alert))).
Proof.
  split; [split; reflexivity|].
  apply (false_alert_excluded_from_heat
           [with_status mandvi_surge (Some false) (Some social) (Some false_alert)]
           true timeline_now initialVisibleTypes ready_map
           (with_status mandvi_surge (Some false) (Some social) (Some false_alert)));
    reflexivity.
Defined.

(** ** C3: the bucket split *)

(** An active, unverified news report. *)
Definition unverified_news : HazardReport :=
  with_status mandvi_surge (Some false) (Some news) (Some unverified).

(** C3 (counterexample): an active, unverified news report that is not a
    false alert belongs to none of the four buckets. *)
Lemma C3_unverified_news_in_no_bucket :
  In unverified_news (filtered [unverified_news] initialVisibleTypes timeline_now) /\
  verificationStatus unverified_news <> Some false_alert /\
  is_agency_report unverified_news = false /\ is_prediction_report unverified_news = false /\
  is_verified_news unverified_news = false /\ is_ambiguous_news unverified_news = false.
Proof.
  split; [simpl; left; reflexivity|].
  split; [discriminate|]. repeat split.
Qed.

(** C3 (amended): an active report with [isPrediction] set is in the
    prediction bucket; an active non-prediction report is never in the
    prediction bucket, is in the agency bucket iff its source is agency, in
    the verified bucket iff its source is news or social and it is verified,
    and in the ambiguous bucket iff its source is news or social and it is
    ambiguous (so in at most one bucket, and in none for other statuses). *)
Theorem bucket_split_precedence (reports : list HazardReport) (vis : list HazardType)
    (t : Z) (r : HazardReport) (Hact : In r (filtered reports vis t)) :
  let F := filtered reports vis t in
  (truthy (isPrediction r) = true -> In r (filter is_prediction_report F)) /\
  (truthy (isPrediction r) = false ->
   ~ In r (filter is_prediction_report F) /\
   (In r (filter is_agency_report F) <-> source r = Some agency) /\
   (In r (filter is_verified_news F) <->
      (source r = Some news \/ source r = Some social) /\ verificationStatus r = Some verified) /\
   (In r (filter is_ambiguous_news F) <->
      (source r = Some news \/ source r = Some social) /\ verificationStatus r = Some ambiguous)).
Proof.
  intros F. split.
  - intros Hp. apply filter_In. split; [exact Hact | exact Hp].
  - intros Hp. rewrite !filter_In.
    unfold is_prediction_report, is_agency_report, is_verified_news, is_ambiguous_news.
    rewrite Hp. simpl. rewrite andb_true_r.
    destruct (source r) as [[]|]; destruct (verificationStatus r) as [[]|]; simpl;
      intuition (try discriminate; try congruence).
Qed.

Lemma bucket_split_precedence_witness :
  In unverified_news (filtered [unverified_news] initialVisibleTypes timeline_now) /\
  let F := filtered [unverified_news] initialVisibleTypes timeline_now in
  (truthy (isPrediction unverified_news) = true -> In unverified_news (filter is_prediction_report F)) /\
  (truthy (isPrediction unverified_news) = false ->
   ~ In unverified_news (filter is_prediction_report F) /\
   (In unverified_news (filter is_agency_report F) <-> source unverified_news = Some agency) /\
   (In unverified_news (filter is_verified_news F) <->
      (source unverified_news = Some news \/ source unverified_news = Some social) /\
      verificationStatus unverified_news = Some verified) /\
   (In unverified_news (filter is_ambiguous_news F) <->
      (source unverified_news = Some news \/ source unverified_news = Some social) /\
      verificationStatus unverified_news = Some ambiguous)).
Proof.
  split; [simpl; left; reflexivity|].
  apply (bucket_split_precedence [unverified_news] initialVisibleTypes timeline_now unverified_news).
  simpl; left; reflexivity.
Defined.

(** A prediction sourced from news and marked verified, active at
    [timeline_now]: it is both in the prediction bucket and in the verified
    bucket, hence drawn twice (a dashed marker and a heat layer). *)
Example prediction_news_in_two_buckets :
  let r := with_status mandvi_surge (Some true) (Some news) (Some verified) in
  let F := filtered [r] initialVisibleTypes timeline_now in
  In r (filter is_prediction_report F) /\ In r (filter is_verified_news F).
Proof. simpl. split; left; reflexivity. Qed.

(** ** C5: region scope *)

(** An active agency report at Chennai. *)
Definition chennai_report : HazardReport :=
  {| id := "report-c"; type := storm_surge; severity := high;
     lat := 1308 # 100; lng := 8027 # 100; timestamp := timeline_now - 3600000;
     isPrediction := Some false; source := Some agency;
     verificationStatus := Some verified; durationHours := Some 48 |}.

(** C5 (counterexample): with the Mumbai region selected, an active agency
    report at Chennai lies far outside Mumbai's box expanded by 0.5 degrees,
    yet the map pass, which takes no region input, draws it. *)
Lemma C5_map_layers_ignore_region :
  isPointInBbox (lat chennai_report) (lng chennai_report) (bbox Mumbai) default_margin = false /\
  in_layers (render_pass [chennai_report] true timeline_now initialVisibleTypes ready_map)
    chennai_report.
Proof.
  split; [reflexivity|].
  right; left. eexists. split; [simpl; left; reflexivity | reflexivity].
Qed.

(** C5 (amended): the region check is applied to the sidebar report list,
    not to the map layers: with a region selected, a report is listed iff it
    is listed without a region and its latitude lies in
    [[south - 0.5, north + 0.5]] and its longitude in [[west - 0.5, east + 0.5]];
    with no region, the list is the agency non-prediction reports
    (optionally of the selected kind), with no spatial check. *)
Theorem sidebar_region_scope :
  forall (reports : list HazardReport) (sel : option HazardType) (rg : RegionEntry)
         (r : HazardReport),
    (In r (sidebar_reports reports sel (Some rg)) <->
     In r (sidebar_reports reports sel None) /\
     (south (bbox rg) - (1 # 2) <= lat r <= north (bbox rg) + (1 # 2))%Q /\
     (west (bbox rg) - (1 # 2) <= lng r <= east (bbox rg) + (1 # 2))%Q) /\
    (In r (sidebar_reports reports sel None) <->
     In r reports /\ truthy (isPrediction r) = false /\ source r = Some agency /\
     match sel with Some k => type r = k | None => True end).
Proof.
  intros reports sel rg r. split.
  - unfold sidebar_reports at 1. rewrite filter_In.
    unfold isPointInBbox, default_margin.
    rewrite !andb_true_iff, !Qle_bool_iff. fold (sidebar_reports reports sel None).
    change (sidebar_reports reports sel None) with
      (match sel with
       | Some t => filter (fun r => HazardType_eqb (type r) t) (hazardReports reports)
       | None => hazardReports reports end).
    tauto.
  - unfold sidebar_reports, hazardReports.
    destruct sel as [k|]; rewrite ?filter_In, ?andb_true_iff, ?negb_true_iff.
    + rewrite HazardType_eqb_spec.
      destruct (source r) as [[]|]; simpl; intuition (try discriminate; try congruence).
    + destruct (source r) as [[]|]; simpl; intuition (try discriminate; try congruence).
Qed.

(** ** C6: playback *)

(** C6: while playing, one playback tick adds exactly one hour when that
    stays within [end_]; otherwise it sets the timestamp to [end_] and
    pauses; after a tick the timestamp never exceeds [end_]; and from a
    timestamp within range, any number of timer periods only moves the
    timestamp forward and never past [end_]. *)
Theorem playback_tick_clamps (end_ : Z) (st : TimelineState)
    (Hplay : isPlaying st = true) :
  let st' := playback_step end_ st in
  (selectedTimestamp st + 3600000 <= end_ ->
     selectedTimestamp st' = selectedTimestamp st + 3600000 /\ isPlaying st' = true) /\
  (end_ < selectedTimestamp st + 3600000 ->
     selectedTimestamp st' = end_ /\ isPlaying st' = false) /\
  selectedTimestamp st' <= end_ /\
  (forall n, selectedTimestamp st <= end_ ->
     selectedTimestamp st <= selectedTimestamp (playback_run end_ n st) <= end_).
Proof.
  intros st'. subst st'.
  split; [|split; [|split]].
  - intros H. unfold playback_step. rewrite Hplay.
    unfold playback_tick, setSelectedTimestamp, set, bind, tick_updater, ret. simpl.
    destruct (Z.gtb_spec (selectedTimestamp st + 3600000) end_); [lia|].
    simpl. split; [reflexivity | exact Hplay].
  - intros H. unfold playback_step. rewrite Hplay.
    unfold playback_tick, setSelectedTimestamp, set, bind, tick_updater, setIsPlaying, set, ret.
    simpl. destruct (Z.gtb_spec (selectedTimestamp st + 3600000) end_); [|lia].
    simpl. split; reflexivity.
  - unfold playback_step. rewrite Hplay.
    unfold playback_tick, setSelectedTimestamp, set, bind, tick_updater, setIsPlaying, set, ret.
    simpl. destruct (Z.gtb_spec (selectedTimestamp st + 3600000) end_); simpl; lia.
  - intros n H. apply playback_run_bounded. exact H.
Qed.

Lemma playback_tick_clamps_witness :
  let st := {| selectedTimestamp := range_end - 1800000; isPlaying := true;
               playbackSpeed := 1 |} in
  isPlaying st = true /\
  (let st' := playback_step range_end st in
   (selectedTimestamp st + 3600000 <= range_end ->
      selectedTimestamp st' = selectedTimestamp st + 3600000 /\ isPlaying st' = true) /\
   (range_end < selectedTimestamp st + 3600000 ->
      selectedTimestamp st' = range_end /\ isPlaying st' = false) /\
   selectedTimestamp st' <= range_end /\
   (forall n, selectedTimestamp st <= range_end ->
      selectedTimestamp st <= selectedTimestamp (playback_run range_end n st) <= range_end)).
Proof.
  intros st. split; [reflexivity|].
  apply (playback_tick_clamps range_end st). reflexivity.
Defined.

(** ** C7: scrubbing and direct sets *)

(** C7 (counterexample): while playing at the range end, setting the
    timestamp to 100 days past the range end (directly, or by 100 presses
    of jump-forward) stores that timestamp unclamped and leaves playback
    running. *)
Lemma C7_direct_set_not_clamped :
  let st := {| selectedTimestamp := range_end; isPlaying := true; playbackSpeed := 1 |} in
  let st1 := snd (setSelectedTimestamp (TsValue (range_end + 100 * 86400000)) st) in
  let st2 := Nat.iter 100 (fun s => snd (jumpForward s)) st in
  (selectedTimestamp st1 = range_end + 100 * 86400000 /\ selectedTimestamp st1 <> range_end /\
   isPlaying st1 = true) /\
  (selectedTimestamp st2 = range_end + 100 * 86400000 /\ isPlaying st2 = true).
Proof.
  vm_compute. split; split; try reflexivity. split; [discriminate | reflexivity].
Qed.

(** C7 (amended): drag scrubbing clamps the pointer position to the slider,
    so its target always lies within [[start, end_]]; the store setter used
    by clicks, jumps and direct sets stores any target unchanged; neither
    changes the play state. *)
Theorem scrub_drag_clamps (start end_ : Z) (st : TimelineState) (clientX left width : Q)
    (Hrange : 0 <= start <= end_) (Hwidth : (0 < width)%Q) :
  (let st' := snd (handleMouseMove start end_ true clientX left width st) in
   start <= selectedTimestamp st' <= end_ /\ isPlaying st' = isPlaying st) /\
  (forall v, snd (setSelectedTimestamp (TsValue v) st)
             = {| selectedTimestamp := v; isPlaying := isPlaying st;
                  playbackSpeed := playbackSpeed st |}).
Proof.
  split.
  - unfold handleMouseMove, setSelectedTimestamp, set, ret. simpl. split; [|reflexivity].
    apply date_of_Q_bounds; [lia|].
    pose proof (slider_position_bounds start (end_ - start) _ ltac:(lia)
                  (percentage_bounds ((clientX - left) / width * 100))) as [H1 H2].
    split; [exact H1|].
    rewrite <- inject_Z_plus in H2. replace (start + (end_ - start)) with end_ in H2 by lia.
    exact H2.
  - intros v. reflexivity.
Qed.

Lemma scrub_drag_clamps_witness :
  let st := {| selectedTimestamp := range_end; isPlaying := true; playbackSpeed := 1 |} in
  (0 <= range_start <= range_end /\ (0 < 800)%Q) /\
  ((let st' := snd (handleMouseMove range_start range_end true 5000 100 800 st) in
    range_start <= selectedTimestamp st' <= range_end /\ isPlaying st' = isPlaying st) /\
   (forall v, snd (setSelectedTimestamp (TsValue v) st)
              = {| selectedTimestamp := v; isPlaying := isPlaying st;
                   playbackSpeed := playbackSpeed st |})).
Proof.
  intros st. split; [split; [unfold range_start, range_end, timeline_now; lia | reflexivity]|].
  apply (scrub_drag_clamps range_start range_end st 5000 100 800).
  - unfold range_start, range_end, timeline_now; lia.
  - reflexivity.
Defined.

(** ** C8: severity weights *)

Definition severity_rank (s : Severity) : Z :=
  match s with low => 0 | medium => 1 | high => 2 | critical => 3 end.

(** C8: the verified heat intensities are 1, 0.8, 0.55 and 0.35 (medium
    within 0.50-0.55, low within 0.30-0.35); the ambiguous ones 0.5, 0.35,
    0.2 and 0.1; the marker radii 10, 8, 6 and 5; each map is strictly
    increasing in severity; every circle marker of a pass, agency or
    prediction, has the radius of its report's severity; and every heat
    layer of a pass is either a verified layer (radius 40) or an ambiguous
    layer (radius 30) whose points carry the intensity of that table. *)
Theorem severity_weights_fixed :
  (verified_intensity critical == 1 /\ verified_intensity high == 8 # 10 /\
   (1 # 2 <= verified_intensity medium <= 55 # 100) /\
   (3 # 10 <= verified_intensity low <= 35 # 100))%Q /\
  (ambiguous_intensity critical == 5 # 10 /\ ambiguous_intensity high == 35 # 100 /\
   ambiguous_intensity medium == 2 # 10 /\ ambiguous_intensity low == 1 # 10)%Q /\
  (severity_radius critical = 10 /\ severity_radius high = 8 /\
   severity_radius medium = 6 /\ severity_radius low = 5) /\
  (forall a b, severity_rank a < severity_rank b ->
     (verified_intensity a < verified_intensity b)%Q /\
     (ambiguous_intensity a < ambiguous_intensity b)%Q /\
     severity_radius a < severity_radius b) /\
  (forall reports show t vis s m,
     mapReady s = true -> In m (circleLayersRef (render_pass reports show t vis s)) ->
     cm_radius m = severity_radius (severity (cm_report m))) /\
  (forall reports show t vis s h,
     mapReady s = true -> In h (heatLayersRef (render_pass reports show t vis s)) ->
     (heat_radius h = 40 /\
      heat_points h = map (fun r => (lat r, lng r, verified_intensity (severity r)))
                          (heat_reports h)) \/
     (heat_radius h = 30 /\
      heat_points h = map (fun r => (lat r, lng r, ambiguous_intensity (severity r)))
                          (heat_reports h))).
Proof.
  split; [repeat split; first [reflexivity | unfold Qle; simpl; lia]|].
  split; [repeat split; reflexivity|].
  split; [repeat split; reflexivity|].
  split.
  { intros [] []; simpl; intros H; try lia; repeat split; first [lia | unfold Qlt; simpl; lia]. }
  split.
  { intros reports show t vis s m Hready Hm.
    destruct (render_circle_origin _ _ _ _ _ _ Hready Hm) as [_ [_ [_ H]]]. exact H. }
  intros reports show t vis s h Hready. unfold render_pass. rewrite Hready. simpl.
  destruct show; simpl; [|intros []].
  intros Hh. apply in_app_or in Hh. destruct Hh as [Hh|Hh].
  - left. exact (heat_layers_shape _ _ _ _ _ Hh).
  - right. exact (heat_layers_shape _ _ _ _ _ Hh).
Qed.

(** * Further properties of the code *)

(** ** Social notification feed *)

Definition newer_or_same (a b : SocialNotification) : Prop :=
  sn_timestamp b <= sn_timestamp a.

Lemma insert_newest_perm x l : Permutation (insert_newest x l) (x :: l).
Proof.
  induction l as [|y l IH]; simpl; [reflexivity|].
  destruct (sn_timestamp y <=? sn_timestamp x); [reflexivity|].
  rewrite IH. apply perm_swap.
Qed.

Lemma sort_newest_perm l : Permutation (sort_newest l) l.
Proof.
  induction l as [|x l IH]; simpl; [reflexivity|].
  rewrite insert_newest_perm. apply perm_skip. exact IH.
Qed.

Lemma insert_newest_sorted x l :
  StronglySorted newer_or_same l -> StronglySorted newer_or_same (insert_newest x l).
Proof.
  induction l as [|y l IH]; simpl; intros Hs.
  - repeat constructor.
  - apply StronglySorted_inv in Hs. destruct Hs as [Hl Hy].
    destruct (Z.leb_spec (sn_timestamp y) (sn_timestamp x)) as [Hle|Hlt].
    + constructor; [constructor; assumption|].
      constructor; [exact Hle|].
      rewrite Forall_forall in *. intros z Hz. unfold newer_or_same in *.
      specialize (Hy z Hz). lia.
    + constructor; [apply IH; exact Hl|].
      rewrite Forall_forall in *. intros z Hz.
      apply (Permutation_in _ (insert_newest_perm x l)) in Hz.
      destruct Hz as [<-|Hz]; [unfold newer_or_same; lia | apply Hy; exact Hz].
Qed.

Lemma sort_newest_sorted l : StronglySorted newer_or_same (sort_newest l).
Proof.
  induction l as [|x l IH]; simpl; [constructor|].
  apply insert_newest_sorted. exact IH.
Qed.

Lemma strongly_sorted_app {A} (R : A -> A -> Prop) (l1 l2 : list A) :
  StronglySorted R (l1 ++ l2) -> forall a b, In a l1 -> In b l2 -> R a b.
Proof.
  induction l1 as [|x l1 IH]; simpl; [intros _ a b []|].
  intros Hs a b Ha Hb. apply StronglySorted_inv in Hs. destruct Hs as [Hs Hx].
  destruct Ha as [<-|Ha].
  - rewrite Forall_forall in Hx. apply Hx. apply in_or_app. right. exact Hb.
  - exact (IH Hs a b Ha Hb).
Qed.

Lemma string_set_has_add (s : list string) (x : string) :
  string_set_has (string_set_add s x) x = true.
Proof.
  unfold string_set_add. destruct (string_set_has s x) eqn:E; [exact E|].
  unfold string_set_has. rewrite existsb_app. simpl. rewrite String.eqb_refl.
  apply orb_true_r.
Qed.

(** The feed filter as a proposition: at most six hours older than the
    selected time and not newer, not dismissed, and in the region's widened
    box when a region is set and both coordinates are present. *)
Lemma notification_passes_iff :
  forall (t : Z) (dismissed : list string) (region : option RegionEntry)
         (n : SocialNotification),
    notification_passes t dismissed region n = true <->
    sn_timestamp n <= t /\ t - sn_timestamp n <= 6 * 60 * 60 * 1000 /\
    string_set_has dismissed (sn_id n) = false /\
    (forall rg la ln, region = Some rg -> sn_lat n = Some la -> sn_lng n = Some ln ->
       isPointInBbox la ln (bbox rg) default_margin = true).
Proof.
  intros t dismissed region n. unfold notification_passes.
  destruct (Z.leb_spec (sn_timestamp n) t) as [H1|H1]; simpl;
    [|split; [discriminate | lia]].
  destruct (string_set_has dismissed (sn_id n)); simpl;
    [split; [discriminate | intros [_ [_ [H _]]]; discriminate]|].
  destruct (Z.leb_spec (t - sn_timestamp n) 21600000) as [H2|H2]; simpl;
    [|split; [discriminate | lia]].
  destruct (Z.geb_spec (t - sn_timestamp n) 0) as [H3|H3]; simpl; [|lia].
  destruct region as [rg|], (sn_lat n) as [la|], (sn_lng n) as [ln|];
    try (split; [intros _; repeat split; try lia; intros ? ? ? ? ? ?; discriminate
                | reflexivity]).
  destruct (isPointInBbox la ln (bbox rg) default_margin) eqn:E; simpl.
  - split; [intros _; repeat split; try lia; intros ? ? ? Hr Ha Hb;
            inversion Hr; inversion Ha; inversion Hb; subst; exact E | reflexivity].
  - split; [discriminate|]. intros [_ [_ [_ H]]].
    rewrite (H rg la ln eq_refl eq_refl eq_refl) in E. discriminate.
Qed.

Lemma in_firstn_in {A} (k : nat) (l : list A) (x : A) : In x (firstn k l) -> In x l.
Proof.
  intros H. rewrite <- (firstn_skipn k l). apply in_or_app. left. exact H.
Qed.

Lemma strongly_sorted_app_l {A} (R : A -> A -> Prop) (l1 l2 : list A) :
  StronglySorted R (l1 ++ l2) -> StronglySorted R l1.
Proof.
  induction l1 as [|x l1 IH]; simpl; intros Hs; [constructor|].
  apply StronglySorted_inv in Hs. destruct Hs as [Hs Hx]. constructor.
  - exact (IH Hs).
  - rewrite Forall_forall in *. intros y Hy. apply Hx. apply in_or_app. left. exact Hy.
Qed.

(** X2: the feed shows at most four notifications, each of them one that
    passes the filter, ordered newest first. *)
Theorem visible_notifications_shape :
  forall (all : list SocialNotification) (t : Z) (dismissed : list string)
         (region : option RegionEntry),
    (List.length (visible_notifications all t dismissed region) <= 4)%nat /\
    (forall n, In n (visible_notifications all t dismissed region) ->
       In n all /\ notification_passes t dismissed region n = true) /\
    StronglySorted newer_or_same (visible_notifications all t dismissed region).
Proof.
  intros all t dismissed region. unfold visible_notifications.
  split; [apply firstn_le_length|]. split.
  - intros n Hn. apply in_firstn_in in Hn.
    apply (Permutation_in _ (sort_newest_perm _)) in Hn.
    apply filter_In in Hn. exact Hn.
  - apply (strongly_sorted_app_l _ _ (skipn MAX_VISIBLE_NOTIFICATIONS
             (sort_newest (filter (notification_passes t dismissed region) all)))).
    rewrite firstn_skipn. apply sort_newest_sorted.
Qed.

(** X3: the feed shows the newest passing notifications: a notification
    that passes the filter but is not shown is no newer than any shown one;
    and when at most four pass, all of them are shown. *)
Theorem visible_notifications_newest :
  forall (all : list SocialNotification) (t : Z) (dismissed : list string)
         (region : option RegionEntry) (n m : SocialNotification),
    In n all -> notification_passes t dismissed region n = true ->
    (~ In n (visible_notifications all t dismissed region) ->
     In m (visible_notifications all t dismissed region) ->
     sn_timestamp n <= sn_timestamp m) /\
    ((List.length (filter (notification_passes t dismissed region) all) <= 4)%nat ->
     In n (visible_notifications all t dismissed region)).
Proof.
  intros all t dismissed region n m Hn Hp.
  set (F := filter (notification_passes t dismissed region) all).
  assert (HnF : In n (sort_newest F)).
  { apply (Permutation_in _ (Permutation_sym (sort_newest_perm F))).
    apply filter_In. split; assumption. }
  unfold visible_notifications. fold F. split.
  - intros Hnot Hm.
    pose proof (sort_newest_sorted F) as Hs.
    rewrite <- (firstn_skipn MAX_VISIBLE_NOTIFICATIONS (sort_newest F)) in Hs, HnF.
    apply in_app_or in HnF. destruct HnF as [HnF|HnF]; [contradiction|].
    exact (strongly_sorted_app _ _ _ Hs m n Hm HnF).
  - intros Hlen. rewrite firstn_all2; [exact HnF|].
    rewrite (Permutation_length (sort_newest_perm F)). exact Hlen.
Qed.

Lemma visible_notifications_newest_witness :
  (In (sample_notification 5) sample_notifications /\
   notification_passes timeline_now [] None (sample_notification 5) = true) /\
  ((~ In (sample_notification 5) (visible_notifications sample_notifications timeline_now [] None) ->
    In (sample_notification 1) (visible_notifications sample_notifications timeline_now [] None) ->
    sn_timestamp (sample_notification 5) <= sn_timestamp (sample_notification 1)) /\
   ((List.length (filter (notification_passes timeline_now [] None) sample_notifications) <= 4)%nat ->
    In (sample_notification 5) (visible_notifications sample_notifications timeline_now [] None))).
Proof.
  split; [split; [simpl; right; right; left; reflexivity | reflexivity]|].
  apply (visible_notifications_newest sample_notifications timeline_now [] None
           (sample_notification 5) (sample_notification 1)).
  - simpl; right; right; left; reflexivity.
  - reflexivity.
Defined.

(** X4: once a notification's id is dismissed, the feed never shows a
    notification with that id, whatever the time and region. *)
Theorem dismissed_never_shown :
  forall (all : list SocialNotification) (t : Z) (dismissed : list string)
         (region : option RegionEntry) (id_ : string) (n : SocialNotification),
    In n (visible_notifications all t (handleDismiss id_ dismissed) region) ->
    sn_id n <> id_.
Proof.
  intros all t dismissed region id_ n Hn Heq.
  destruct (visible_notifications_shape all t (handleDismiss id_ dismissed) region)
    as [_ [H _]].
  destruct (H n Hn) as [_ Hp]. apply notification_passes_iff in Hp.
  destruct Hp as [_ [_ [Hd _]]]. rewrite Heq in Hd. unfold handleDismiss in Hd.
  rewrite string_set_has_add in Hd. discriminate.
Qed.

Lemma dismissed_never_shown_witness :
  In (sample_notification 1)
     (visible_notifications sample_notifications timeline_now (handleDismiss "sn-3" []) None) /\
  sn_id (sample_notification 1) <> "sn-3"%string.
Proof.
  assert (H : In (sample_notification 1)
                 (visible_notifications sample_notifications timeline_now
                    (handleDismiss "sn-3" []) None)) by (vm_compute; left; reflexivity).
  split; [exact H|].
  exact (dismissed_never_shown sample_notifications timeline_now [] None "sn-3"
           (sample_notification 1) H).
Defined.

(** ** Seed data *)

Lemma build_indexed_In {A} (f : nat -> A -> HazardReport) (k : nat) (l : list A) r :
  In r (build_indexed f k l) -> exists i x, In x l /\ r = f i x.
Proof.
  revert k. induction l as [|x l IH]; simpl; intros k H; [contradiction|].
  destruct H as [<-|H]; [exists k, x; auto|].
  destruct (IH _ H) as (i & y & Hy & ->). exists i, y. auto.
Qed.

Lemma generated_origin agencyReports newsReports predictions r :
  In r (generateTemporalData agencyReports newsReports predictions) ->
  (exists i e, In e (agencyReports ++ newsReports) /\ r = build_past_report timeline_now i e)
  \/ (exists i p, In p predictions /\ r = build_prediction_report timeline_now i p).
Proof.
  unfold generateTemporalData. intros H. apply in_app_or in H.
  destruct H as [H|H]; [left|right]; exact (build_indexed_In _ _ _ _ H).
Qed.

Lemma build_indexed_ids {A} (f : nat -> A -> HazardReport) (g : nat -> string)
    (k : nat) (l : list A) :
  (forall i x, id (f i x) = g i) ->
  map id (build_indexed f k l) = map g (seq k (List.length l)).
Proof.
  intros Hg. revert k. induction l as [|x l IH]; simpl; intros k; [reflexivity|].
  rewrite Hg, IH. reflexivity.
Qed.

Lemma NoDup_map_injective {A B} (f : A -> B) (l : list A) :
  (forall x y, f x = f y -> x = y) -> NoDup l -> NoDup (map f l).
Proof.
  intros Hf Hl. induction Hl as [|x l Hx Hl IH]; simpl; constructor; [|exact IH].
  intros Hin. apply in_map_iff in Hin. destruct Hin as (y & Hy & Hyl).
  apply Hf in Hy. subst y. contradiction.
Qed.

Lemma to_uint_nonnil (n : nat) : Nat.to_uint n <> Decimal.Nil.
Proof.
  intros E. pose proof (DecimalNat.Unsigned.of_to n) as Hn.
  rewrite E in Hn. simpl in Hn. subst n. discriminate E.
Qed.

Lemma string_of_nat_inj (n m : nat) : string_of_nat n = string_of_nat m -> n = m.
Proof.
  unfold string_of_nat. intros H.
  apply (f_equal DecimalString.NilZero.uint_of_string) in H.
  rewrite !DecimalString.NilZero.usu in H by apply to_uint_nonnil.
  injection H as H.
  rewrite <- (DecimalNat.Unsigned.of_to n), <- (DecimalNat.Unsigned.of_to m), H.
  reflexivity.
Qed.

Lemma append_cancel_l (p s1 s2 : string) : (p ++ s1 = p ++ s2)%string -> s1 = s2.
Proof.
  induction p as [|c p IH]; simpl; intros H; [exact H|].
  injection H as H. exact (IH H).
Qed.

Lemma hazardReports_app (l1 l2 : list HazardReport) :
  hazardReports (l1 ++ l2) = hazardReports l1 ++ hazardReports l2.
Proof. unfold hazardReports. apply filter_app. Qed.

(** X5: every report the seed builder produces carries the duration of
    its kind from [HAZARD_DURATION_HOURS], so its active window is exactly
    that many hours: the 48-hour fallback of the map's activity filter
    never applies to seeded reports. *)
Theorem generated_durations :
  forall (agencyReports newsReports : list PastEntry)
         (predictions : list PredictionEntry) (r : HazardReport),
    In r (generateTemporalData agencyReports newsReports predictions) ->
    durationHours r = Some (HAZARD_DURATION_HOURS (type r)) /\
    durationMs r = HAZARD_DURATION_HOURS (type r) * 3600000.
Proof.
  intros agencyReports newsReports predictions r H.
  destruct (generated_origin _ _ _ _ H) as [(i & e & _ & ->)|(i & p & _ & ->)];
    simpl; split; try reflexivity; unfold durationMs; simpl;
    [destruct (pe_type e) | destruct (pr_type p)]; reflexivity.
Qed.

Lemma generated_durations_witness :
  In (build_past_report timeline_now 1 chellanam_entry)
     (generateTemporalData [mandvi_entry; chellanam_entry] [] [odisha_prediction]) /\
  durationHours (build_past_report timeline_now 1 chellanam_entry)
    = Some (HAZARD_DURATION_HOURS (type (build_past_report timeline_now 1 chellanam_entry))) /\
  durationMs (build_past_report timeline_now 1 chellanam_entry)
    = HAZARD_DURATION_HOURS (type (build_past_report timeline_now 1 chellanam_entry)) * 3600000.
Proof.
  assert (H : In (build_past_report timeline_now 1 chellanam_entry)
                 (generateTemporalData [mandvi_entry; chellanam_entry] [] [odisha_prediction]))
    by (simpl; right; left; reflexivity).
  split; [exact H|].
  exact (generated_durations [mandvi_entry; chellanam_entry] [] [odisha_prediction] _ H).
Defined.

(** X6: the seed builder gives every report a distinct id: ["report-0"],
    ["report-1"], ... for the past reports and ["pred-0"], ["pred-1"], ...
    for the predictions. *)
Theorem generated_ids_distinct :
  forall (agencyReports newsReports : list PastEntry) (predictions : list PredictionEntry),
    NoDup (map id (generateTemporalData agencyReports newsReports predictions)).
Proof.
  intros agencyReports newsReports predictions. unfold generateTemporalData.
  rewrite map_app.
  rewrite (build_indexed_ids _ (fun i => "report-" ++ string_of_nat i)%string)
    by reflexivity.
  rewrite (build_indexed_ids _ (fun i => "pred-" ++ string_of_nat i)%string)
    by reflexivity.
  apply NoDup_app.
  - apply NoDup_map_injective; [|apply seq_NoDup].
    intros x y H. apply append_cancel_l in H. exact (string_of_nat_inj _ _ H).
  - apply NoDup_map_injective; [|apply seq_NoDup].
    intros x y H. apply append_cancel_l in H. exact (string_of_nat_inj _ _ H).
  - intros a Ha Hb. apply in_map_iff in Ha, Hb.
    destruct Ha as (i & <- & _). destruct Hb as (j & Hj & _). discriminate Hj.
Qed.

(** X7: when every past entry is zero to seven days old with an hour
    offset of at most 24, and every prediction is zero to three days ahead
    (as in the seed arrays), every generated report lies within the range
    of the timeline slider ([getTimelineRange]). *)
Theorem generated_within_range :
  forall (agencyReports newsReports : list PastEntry) (predictions : list PredictionEntry),
    Forall (fun e => 0 <= pe_daysAgo e <= 7 /\
                     forall h, pe_hoursOffset e = Some h -> 0 <= h <= 24)
           (agencyReports ++ newsReports) ->
    Forall (fun p => 0 <= pr_daysAhead p <= 3) predictions ->
    forall r, In r (generateTemporalData agencyReports newsReports predictions) ->
      range_start <= timestamp r <= range_end.
Proof.
  intros agencyReports newsReports predictions Hpast Hpred r H.
  rewrite Forall_forall in Hpast, Hpred. unfold range_start, range_end.
  destruct (generated_origin _ _ _ _ H) as [(i & e & He & ->)|(i & p & Hp & ->)];
    cbn [timestamp build_past_report build_prediction_report].
  - destruct (Hpast e He) as [Hd Hh]. unfold past_timestamp.
    destruct (pe_hoursOffset e) as [h|]; [|lia].
    specialize (Hh h eq_refl). destruct (h =? 0); lia.
  - specialize (Hpred p Hp). lia.
Qed.

Lemma generated_within_range_witness :
  (Forall (fun e => 0 <= pe_daysAgo e <= 7 /\
                    forall h, pe_hoursOffset e = Some h -> 0 <= h <= 24)
          ([mandvi_entry; chellanam_entry] ++ []) /\
   Forall (fun p => 0 <= pr_daysAhead p <= 3) [odisha_prediction] /\
   In (build_prediction_report timeline_now 0 odisha_prediction)
      (generateTemporalData [mandvi_entry; chellanam_entry] [] [odisha_prediction])) /\
  range_start <= timestamp (build_prediction_report timeline_now 0 odisha_prediction)
    <= range_end.
Proof.
  assert (H1 : Forall (fun e => 0 <= pe_daysAgo e <= 7 /\
                                forall h, pe_hoursOffset e = Some h -> 0 <= h <= 24)
                      ([mandvi_entry; chellanam_entry] ++ [])).
  { apply Forall_forall. intros e He. simpl in He.
    destruct He as [<-|[<-|[]]]; cbn;
      (split; [lia | intros h Hh; first [discriminate Hh | injection Hh as <-; lia]]). }
  assert (H2 : Forall (fun p => 0 <= pr_daysAhead p <= 3) [odisha_prediction]).
  { constructor; [cbn; lia | constructor]. }
  assert (H3 : In (build_prediction_report timeline_now 0 odisha_prediction)
                  (generateTemporalData [mandvi_entry; chellanam_entry] [] [odisha_prediction]))
    by (simpl; right; right; left; reflexivity).
  split; [split; [exact H1 | split; [exact H2 | exact H3]]|].
  exact (generated_within_range [mandvi_entry; chellanam_entry] [] [odisha_prediction]
           H1 H2 _ H3).
Defined.

(** X8: built from generated data, [hazardReports] (the sidebar's list)
    keeps exactly the past reports whose source is an agency, in their
    order; no prediction reaches it. *)
Theorem hazardReports_of_generated :
  forall (agencyReports newsReports : list PastEntry) (predictions : list PredictionEntry),
    hazardReports (generateTemporalData agencyReports newsReports predictions) =
    filter (fun r => source_is agency (source r))
           (build_indexed (build_past_report timeline_now) 0 (agencyReports ++ newsReports)).
Proof.
  intros agencyReports newsReports predictions. unfold generateTemporalData.
  rewrite hazardReports_app.
  assert (Hp : forall k, hazardReports
                 (build_indexed (build_prediction_report timeline_now) k predictions) = []).
  { induction predictions as [|p ps IH]; intros k; [reflexivity|]. exact (IH (S k)). }
  rewrite Hp, app_nil_r. generalize 0%nat.
  induction (agencyReports ++ newsReports) as [|e es IH]; intros k; [reflexivity|].
  unfold hazardReports in *. simpl. rewrite IH. reflexivity.
Qed.

(** ** Reports up to a time *)

(** X9: [getDataAtTimestamp] is monotone in the time: the reports up to an
    earlier time are exactly those of a later time's result that are up to
    the earlier time, in the same order. *)
Theorem getDataAtTimestamp_monotone :
  forall (t1 t2 : Z) (allData : list HazardReport),
    t1 <= t2 ->
    getDataAtTimestamp t1 allData = getDataAtTimestamp t1 (getDataAtTimestamp t2 allData).
Proof.
  intros t1 t2 allData Ht. unfold getDataAtTimestamp.
  induction allData as [|r rs IH]; [reflexivity|]. simpl.
  destruct (Z.leb_spec (timestamp r) t2); destruct (Z.leb_spec (timestamp r) t1);
    simpl; rewrite ?IH; try reflexivity; try lia.
  - destruct (Z.leb_spec (timestamp r) t1); [reflexivity | lia].
  - destruct (Z.leb_spec (timestamp r) t1); [lia | reflexivity].
Qed.

Lemma getDataAtTimestamp_monotone_witness :
  timeline_now - 3600000 <= timeline_now /\
  getDataAtTimestamp (timeline_now - 3600000) [mandvi_surge; cyclone_no_duration] =
  getDataAtTimestamp (timeline_now - 3600000)
    (getDataAtTimestamp timeline_now [mandvi_surge; cyclone_no_duration]).
Proof.
  assert (H : timeline_now - 3600000 <= timeline_now) by (unfold timeline_now; lia).
  split; [exact H|].
  exact (getDataAtTimestamp_monotone _ _ [mandvi_surge; cyclone_no_duration] H).
Defined.

(** ** Relative times *)

(** X10: [getTimeAgo] reports a date less than a minute before the fixed
    now, or after it, as ["Just now"]; otherwise it prints the whole number
    of elapsed minutes below an hour, of hours below a day, and of days
    beyond. *)
Theorem getTimeAgo_units :
  forall date : Z,
    (timeline_now - date < 60000 -> getTimeAgo date = "Just now"%string) /\
    (60000 <= timeline_now - date < 3600000 ->
       getTimeAgo date = (string_of_Z ((timeline_now - date) / 60000) ++ "m ago")%string) /\
    (3600000 <= timeline_now - date < 86400000 ->
       getTimeAgo date = (string_of_Z ((timeline_now - date) / 3600000) ++ "h ago")%string) /\
    (86400000 <= timeline_now - date ->
       getTimeAgo date = (string_of_Z ((timeline_now - date) / 86400000) ++ "d ago")%string).
Proof.
  intros date. unfold getTimeAgo.
  generalize (timeline_now - date). intros d.
  rewrite !Z.div_div by lia. cbn [Z.mul Pos.mul].
  repeat split; intros Hd;
    repeat match goal with
    | |- context [?a <? ?b] => destruct (Z.ltb_spec a b)
    end; try reflexivity; exfalso; Z.div_mod_to_equations; lia.
Qed.

(** ** Tick marks *)

Lemma tick_mark_In (start end_ now : Z) (m : TickMark) :
  In m (tickMarks start end_ now) -> exists i, (i <= 10)%nat /\ m = tick_mark start end_ now i.
Proof.
  unfold tickMarks. intros H. apply in_map_iff in H. destruct H as (i & <- & Hi).
  apply in_seq in Hi. exists i. split; [lia | reflexivity].
Qed.

(** X11: over a ten-day range ([getTimelineRange]'s), the eleven tick
    marks sit at 0%, 10%, ..., 100% of the slider, no tick is both past
    and future, and at most one tick is marked as now, whatever the current
    time. *)
Theorem tickMarks_layout :
  forall start now : Z,
    Forall2 (fun m i => (position m == inject_Z (10 * Z.of_nat i))%Q)
            (tickMarks start (start + 10 * 86400000) now) (seq 0 11) /\
    (forall m, In m (tickMarks start (start + 10 * 86400000) now) ->
       isPast m && isFuture m = false) /\
    (forall m m', In m (tickMarks start (start + 10 * 86400000) now) ->
       In m' (tickMarks start (start + 10 * 86400000) now) ->
       isNow m = true -> isNow m' = true -> m = m').
Proof.
  intros start now. split; [|split].
  - assert (E : forall i, (position (tick_mark start (start + 10 * 86400000) now i)
                           == inject_Z (10 * Z.of_nat i))%Q).
    { intros i. unfold tick_mark. cbn [position].
      replace (start + Z.of_nat i * 86400000 - start) with (Z.of_nat i * 86400000) by ring.
      replace (start + 10 * 86400000 - start) with 864000000 by ring.
      generalize (Z.of_nat i). intros k.
      unfold Qeq, Qdiv, Qmult, inject_Z. cbn -[Z.mul]. lia. }
    unfold tickMarks. generalize (seq 0 11). intros l.
    induction l as [|i l IH]; cbn [map]; constructor; [exact (E i) | exact IH].
  - intros m Hm. apply tick_mark_In in Hm. destruct Hm as (i & _ & ->).
    unfold tick_mark. cbn [isPast isFuture].
    destruct (Z.ltb_spec (start + Z.of_nat i * 86400000) now);
      destruct (Z.gtb_spec (start + Z.of_nat i * 86400000) now); simpl; lia.
  - intros m m' Hm Hm'. apply tick_mark_In in Hm, Hm'.
    destruct Hm as (i & _ & ->). destruct Hm' as (j & _ & ->).
    unfold tick_mark. cbn [isNow].
    intros Hi Hj. apply Z.ltb_lt in Hi, Hj.
    assert (i = j) by lia. subst j. reflexivity.
Qed.

(** ** Day jumps *)

(** X12: the day-jump buttons undo each other: [jumpBackward] then
    [jumpForward], or the reverse, gives back the store's state. *)
Theorem jumps_cancel :
  forall st : TimelineState,
    snd ((_ <- jumpBackward ;; jumpForward) st) = st /\
    snd ((_ <- jumpForward ;; jumpBackward) st) = st.
Proof.
  intros [ts playing speed].
  split; cbn -[Z.add Z.sub]; unfold merge; cbn -[Z.add Z.sub]; f_equal; ring.
Qed.

(** ** Region search *)

Lemma startsWith_refl (s : string) : startsWith s s = true.
Proof.
  induction s as [|c s IH]; simpl; [reflexivity|]. rewrite Ascii.eqb_refl. exact IH.
Qed.

Lemma includes_of_startsWith (s q : string) : startsWith s q = true -> includes s q = true.
Proof. destruct s; simpl; intros H; rewrite H; reflexivity. Qed.

Lemma exact_contains (q : string) (r : RegionEntry) :
  exact_match q r = true -> contains_match q r = true.
Proof.
  unfold exact_match, contains_match. intros H. apply orb_true_iff in H.
  destruct H as [H|H]; apply String.eqb_eq in H; subst q.
  - rewrite (includes_of_startsWith _ _ (startsWith_refl _)). reflexivity.
  - rewrite (includes_of_startsWith _ _ (startsWith_refl (js_toLowerCase (state r)))).
    apply orb_true_r.
Qed.

Lemma prefix_contains (q : string) (r : RegionEntry) :
  prefix_match q r = true -> contains_match q r = true.
Proof.
  unfold prefix_match, contains_match. intros H. apply orb_true_iff in H.
  destruct H as [H|H]; rewrite (includes_of_startsWith _ _ H); [|apply orb_true_r].
  reflexivity.
Qed.

Lemma find_none_iff {A} (f : A -> bool) (l : list A) :
  find f l = None <-> forall x, In x l -> f x = false.
Proof.
  split; [apply find_none|].
  induction l as [|y l IH]; simpl; intros H; [reflexivity|].
  rewrite (H y (or_introl eq_refl)). apply IH. intros x Hx. exact (H x (or_intror Hx)).
Qed.

Lemma filter_nil_iff {A} (f : A -> bool) (l : list A) :
  filter f l = [] <-> forall x, In x l -> f x = false.
Proof.
  induction l as [|y l IH]; simpl; [split; [intros _ x []|reflexivity]|].
  destruct (f y) eqn:E; split.
  - discriminate.
  - intros H. rewrite (H y (or_introl eq_refl)) in E. discriminate.
  - intros H x [<-|Hx]; [exact E | exact (proj1 IH H x Hx)].
  - intros H. apply IH. intros x Hx. exact (H x (or_intror Hx)).
Qed.

Lemma find_some_of_exists {A} (f : A -> bool) (l : list A) :
  (exists x, In x l /\ f x = true) -> exists y, find f l = Some y /\ f y = true.
Proof.
  intros (x & Hx & Hfx). destruct (find f l) as [y|] eqn:E.
  - exists y. split; [reflexivity|]. exact (proj2 (find_some f l E)).
  - rewrite (find_none f l E x Hx) in Hfx. discriminate.
Qed.

(** X14: [findRegion] finds nothing exactly when the autocomplete
    ([searchRegions] with a positive limit) offers nothing: an exact or
    prefix match is also a containment match. *)
Theorem findRegion_none_iff_no_suggestions :
  forall (query : string) (maxResults : nat),
    (0 < maxResults)%nat ->
    findRegion query = None <-> searchRegions query maxResults = [].
Proof.
  intros query maxResults Hmax. unfold findRegion, searchRegions.
  destruct (blank_query query); [split; reflexivity|].
  set (q := js_toLowerCase (js_trim query)).
  assert (Hfirstn : forall l : list RegionEntry, firstn maxResults l = [] <-> l = []).
  { intros [|x l]; [rewrite firstn_nil; tauto|].
    destruct maxResults as [|m]; [lia|]. simpl. split; discriminate. }
  rewrite Hfirstn, filter_nil_iff. split.
  - intros H. destruct (find (exact_match q) INDIAN_COASTAL_REGIONS); [discriminate|].
    destruct (find (prefix_match q) INDIAN_COASTAL_REGIONS); [discriminate|].
    apply find_none_iff. exact H.
  - intros H.
    assert (He : find (exact_match q) INDIAN_COASTAL_REGIONS = None).
    { apply find_none_iff. intros x Hx. destruct (exact_match q x) eqn:E; [|reflexivity].
      apply exact_contains in E. rewrite H in E by exact Hx.
      discriminate. }
    assert (Hp : find (prefix_match q) INDIAN_COASTAL_REGIONS = None).
    { apply find_none_iff. intros x Hx. destruct (prefix_match q x) eqn:E; [|reflexivity].
      apply prefix_contains in E. rewrite H in E by exact Hx. discriminate. }
    rewrite He, Hp. apply find_none_iff. exact H.
Qed.

Lemma findRegion_none_iff_no_suggestions_witness :
  (0 < 8)%nat /\ (findRegion "kera" = None <-> searchRegions "kera" 8 = []).
Proof.
  assert (H : (0 < 8)%nat) by lia.
  split; [exact H | exact (findRegion_none_iff_no_suggestions "kera" 8 H)].
Defined.

(** X15: what [findRegion] returns is an entry of the region table whose
    lower-cased name or state contains the trimmed, lower-cased query; it is
    an exact name-or-state match whenever the table has one, and otherwise a
    prefix match whenever the table has one. *)
Theorem findRegion_result :
  forall (query : string) (r : RegionEntry),
    findRegion query = Some r ->
    In r INDIAN_COASTAL_REGIONS /\
    contains_match (js_toLowerCase (js_trim query)) r = true /\
    ((exists r', In r' INDIAN_COASTAL_REGIONS /\
                 exact_match (js_toLowerCase (js_trim query)) r' = true) ->
     exact_match (js_toLowerCase (js_trim query)) r = true) /\
    ((exists r', In r' INDIAN_COASTAL_REGIONS /\
                 prefix_match (js_toLowerCase (js_trim query)) r' = true) ->
     exact_match (js_toLowerCase (js_trim query)) r = true \/
     prefix_match (js_toLowerCase (js_trim query)) r = true).
Proof.
  intros query r. unfold findRegion.
  destruct (blank_query query); [discriminate|].
  set (q := js_toLowerCase (js_trim query)).
  destruct (find (exact_match q) INDIAN_COASTAL_REGIONS) as [x|] eqn:Ex.
  - intros [= <-]. apply find_some in Ex. destruct Ex as [Hin Hx].
    split; [exact Hin|]. split; [exact (exact_contains _ _ Hx)|].
    split; [intros _; exact Hx | intros _; left; exact Hx].
  - assert (Hne : ~ exists r', In r' INDIAN_COASTAL_REGIONS /\ exact_match q r' = true).
    { intros Hex. destruct (find_some_of_exists _ _ Hex) as (y & Hy & _).
      rewrite Ex in Hy. discriminate. }
    destruct (find (prefix_match q) INDIAN_COASTAL_REGIONS) as [x|] eqn:Ep.
    + intros [= <-]. apply find_some in Ep. destruct Ep as [Hin Hx].
      split; [exact Hin|]. split; [exact (prefix_contains _ _ Hx)|].
      split; [intros Hex; contradiction | intros _; right; exact Hx].
    + assert (Hnp : ~ exists r', In r' INDIAN_COASTAL_REGIONS /\ prefix_match q r' = true).
      { intros Hex. destruct (find_some_of_exists _ _ Hex) as (y & Hy & _).
        rewrite Ep in Hy. discriminate. }
      intros Hf. apply find_some in Hf. destruct Hf as [Hin Hx].
      split; [exact Hin|]. split; [exact Hx|].
      split; intros Hex; contradiction.
Qed.

Lemma findRegion_result_witness :
  findRegion "kera" = Some Kochi /\
  In Kochi INDIAN_COASTAL_REGIONS /\
  contains_match (js_toLowerCase (js_trim "kera")) Kochi = true /\
  ((exists r', In r' INDIAN_COASTAL_REGIONS /\
               exact_match (js_toLowerCase (js_trim "kera")) r' = true) ->
   exact_match (js_toLowerCase (js_trim "kera")) Kochi = true) /\
  ((exists r', In r' INDIAN_COASTAL_REGIONS /\
               prefix_match (js_toLowerCase (js_trim "kera")) r' = true) ->
   exact_match (js_toLowerCase (js_trim "kera")) Kochi = true \/
   prefix_match (js_toLowerCase (js_trim "kera")) Kochi = true).
Proof.
  assert (H : findRegion "kera" = Some Kochi) by (vm_compute; reflexivity).
  split; [exact H | exact (findRegion_result "kera" Kochi H)].
Defined.

(** ** Camera moves for the user's region *)

(** X16: the fly-to-region effect moves the camera at most once per
    region: run again with the same region, it issues no move. With the map
    ready, a region moves the camera (to its box padded by 10%) exactly when
    the previously shown region has another name, and clearing the region
    flies back to the overview exactly when a region was shown. *)
Theorem region_effect_moves :
  forall (ready : bool) (region : option RegionEntry) (prev : option string),
    region_effect ready region (snd (region_effect ready region prev)) =
      (None, snd (region_effect ready region prev)) /\
    (forall r, region = Some r ->
       (fst (region_effect true region prev) = None <-> prev = Some (name r)) /\
       (prev <> Some (name r) ->
        fst (region_effect true region prev) = Some (FlyToBounds (padded_bounds (bbox r))))) /\
    (region = None ->
       (fst (region_effect true region prev) = None <-> prev = None) /\
       (prev <> None -> fst (region_effect true region prev) = Some (FlyTo DEFAULT_CENTER DEFAULT_ZOOM))).
Proof.
  intros ready region prev. split; [|split].
  - unfold region_effect. destruct ready; [|reflexivity]. cbn [negb].
    destruct region as [r|], prev as [p|]; try reflexivity.
    + destruct (String.eqb_spec p (name r)) as [E|E]; cbn [snd].
      * rewrite E, String.eqb_refl. reflexivity.
      * rewrite String.eqb_refl. reflexivity.
    + cbn [snd]. rewrite String.eqb_refl. reflexivity.
  - intros r ->. unfold region_effect. cbn [negb]. destruct prev as [p|].
    + destruct (String.eqb_spec p (name r)) as [E|E]; cbn [fst].
      * subst p. split; [tauto | intros H; contradiction].
      * split; [split; [discriminate | intros [= H]; contradiction] | reflexivity].
    + split; [split; discriminate | reflexivity].
  - intros ->. unfold region_effect. cbn [negb]. destruct prev as [p|]; cbn [fst].
    + split; [split; discriminate | reflexivity].
    + split; [tauto | intros H; contradiction].
Qed.

(** X17: for a well-formed box (south <= north, west <= east), the padded
    bounds the camera flies to contain every point of the region's box. *)
Theorem padded_bounds_contain_box :
  forall (b : BBox) (la ln : Q),
    (south b <= north b)%Q -> (west b <= east b)%Q ->
    isPointInBbox la ln b 0 = true -> in_bounds (padded_bounds b) la ln.
Proof.
  intros b la ln Hns Hwe H. unfold isPointInBbox in H.
  apply andb_true_iff in H. destruct H as [H H4].
  apply andb_true_iff in H. destruct H as [H H3].
  apply andb_true_iff in H. destruct H as [H1 H2].
  apply Qle_bool_iff in H1, H2, H3, H4.
  unfold in_bounds, padded_bounds. simpl.
  repeat split; lra.
Qed.

Lemma padded_bounds_contain_box_witness :
  ((south (bbox Mumbai) <= north (bbox Mumbai))%Q /\
   (west (bbox Mumbai) <= east (bbox Mumbai))%Q /\
   isPointInBbox (1900 # 100) (7290 # 100) (bbox Mumbai) 0 = true) /\
  in_bounds (padded_bounds (bbox Mumbai)) (1900 # 100) (7290 # 100).
Proof.
  assert (H1 : (south (bbox Mumbai) <= north (bbox Mumbai))%Q) by (vm_compute; discriminate).
  assert (H2 : (west (bbox Mumbai) <= east (bbox Mumbai))%Q) by (vm_compute; discriminate).
  assert (H3 : isPointInBbox (1900 # 100) (7290 # 100) (bbox Mumbai) 0 = true)
    by reflexivity.
  split; [split; [exact H1 | split; [exact H2 | exact H3]]|].
  exact (padded_bounds_contain_box (bbox Mumbai) _ _ H1 H2 H3).
Defined.

(** ** Authentication store *)

Import AuthStore.

(** X18: a region chosen with [setRegion] is persisted: a later [login]
    takes the user's own region when the account has one, and otherwise
    restores the chosen region; either way the region it ends with is the
    one left in storage. *)
Theorem login_after_setRegion :
  forall (r : RegionEntry) (st : AuthState) (ls : Storage) (u : AuthUser) (token : string),
    AuthStore.region (fst (login u token (fst (setRegion (Some r) st ls))
                                         (snd (setRegion (Some r) st ls))))
      = or_else (user_region u) (Some r) /\
    region_key (snd (login u token (fst (setRegion (Some r) st ls))
                                   (snd (setRegion (Some r) st ls))))
      = or_else (user_region u) (Some r) /\
    token_key (snd (login u token (fst (setRegion (Some r) st ls))
                                  (snd (setRegion (Some r) st ls)))) = Some token.
Proof.
  intros r st ls u token. unfold login, setRegion, saveRegion, loadSavedRegion, or_else.
  destruct (user_region u); simpl; auto.
Qed.

(** X19: [logout] forgets the region: the state and the storage hold no
    region and no token afterwards, so a following [login] only has the
    user's own region, and a following [initAuth] leaves the user
    anonymous without a region, whatever [getMe] would answer. *)
Theorem logout_forgets_region :
  forall (st : AuthState) (ls : Storage),
    fst (logout st ls) = {| user := None; status := anonymous; region := None |} /\
    snd (logout st ls) = {| token_key := None; region_key := None |} /\
    (forall u token,
       AuthStore.region (fst (login u token (fst (logout st ls)) (snd (logout st ls))))
         = user_region u) /\
    (forall outcome,
       initAuth outcome (fst (logout st ls)) (snd (logout st ls))
         = ({| user := None; status := anonymous; region := None |},
            {| token_key := None; region_key := None |})).
Proof.
  intros st ls. split; [reflexivity|]. split; [reflexivity|]. split.
  - intros u token. simpl. destruct (user_region u); reflexivity.
  - intros outcome. reflexivity.
Qed.

(** X20: [initAuth] never writes the saved region and never leaves the
    store loading; it removes the stored token only when [getMe] answers
    [null], and otherwise leaves the token as it was. *)
Theorem initAuth_storage :
  forall (outcome : GetMeOutcome) (st : AuthState) (ls : Storage),
    region_key (snd (initAuth outcome st ls)) = region_key ls /\
    status (fst (initAuth outcome st ls)) <> loading /\
    (token_key (snd (initAuth outcome st ls)) = token_key ls \/
     (outcome = me_null /\ token_key (snd (initAuth outcome st ls)) = None)).
Proof.
  intros outcome st ls. unfold initAuth.
  destruct (match token_key ls with Some t => String.eqb t "" | None => true end).
  - simpl. split; [reflexivity | split; [discriminate | left; reflexivity]].
  - destruct outcome; simpl; (split; [reflexivity | split; [discriminate|]]); auto.
Qed.

(** ** Region suggestions *)

(** X21: the guard of the dropdown's suggestions effect is the one
    [searchRegions] already applies: the suggestions are always
    [searchRegions(locationQuery)] with its default limit, so at most
    eight entries. *)
Theorem suggestions_are_search_results :
  forall locationQuery : string,
    suggestions_effect locationQuery = searchRegions locationQuery 8 /\
    (List.length (suggestions_effect locationQuery) <= 8)%nat.
Proof.
  intros locationQuery.
  assert (E : suggestions_effect locationQuery = searchRegions locationQuery 8).
  { unfold suggestions_effect, searchRegions, blank_query.
    destruct (Nat.ltb_spec 0 (String.length (js_trim locationQuery))) as [H|H].
    - reflexivity.
    - replace (String.length (js_trim locationQuery) =? 0)%nat with true
        by (symmetry; apply Nat.eqb_eq; lia).
      rewrite orb_true_r. reflexivity. }
  split; [exact E|]. rewrite E. unfold searchRegions.
  destruct (blank_query locationQuery); [simpl; lia | apply firstn_le_length].
Qed.
